(** * OpenRelik workers: a shallow embedding of the report pipeline

    The development follows the Python sources of the workers:
    - [analyzers/sshd_analyzer.py], [redis_analyzer.py], [jupyter_analyzer.py],
      [tomcat_analyzer.py], [jenkins_analyzer.py] (config analyzers),
    - [container_drift.py], [container_export.py], [yara/tasks.py]
      (mounted-volume processing),
    - [floss/tasks.py] (string extraction).

    Text is a Rocq [string]: a sequence of characters with code points below
    256.  Python exceptions are explicit results. *)

From Stdlib Require Import String Ascii List ZArith Lia Bool DecimalString.
From stdpp Require Import gmap strings.

Open Scope string_scope.
Open Scope list_scope.
Import ListNotations.
Set Warnings "-register-all".

(** ** Python's [re] module, for the constructs the analyzers use *)

Module PyRe.

(** [re.IGNORECASE] and [re.MULTILINE]. *)
Record flags := { ignorecase : bool; multiline : bool }.

Definition NOFLAGS := {| ignorecase := false; multiline := false |}.
Definition I_only := {| ignorecase := true; multiline := false |}.
Definition M_only := {| ignorecase := false; multiline := true |}.
Definition I_M := {| ignorecase := true; multiline := true |}.

Definition code (c : ascii) : nat := nat_of_ascii c.

Definition between (lo hi : nat) (c : ascii) : bool :=
  (lo <=? code c)%nat && (code c <=? hi)%nat.

Definition is_upper (c : ascii) : bool := between 65 90 c.
Definition is_lower (c : ascii) : bool := between 97 122 c.

(** Case folding of a character, as [IGNORECASE] applies it to both the
    pattern literal and the text.  Every literal of the source's patterns is
    ASCII, and below code point 256 the only characters that fold to an ASCII
    letter are its two ASCII forms. *)
Definition lower (c : ascii) : ascii :=
  if is_upper c then ascii_of_nat (code c + 32) else c.

Definition upper (c : ascii) : ascii :=
  if is_lower c then ascii_of_nat (code c - 32) else c.

Definition newline : ascii := "010"%char.

(** [\s] on [str] patterns: tab to carriage return, the four separators
    U+001C..U+001F, space, U+0085 and U+00A0. *)
Definition is_space (c : ascii) : bool :=
  between 9 13 c || between 28 31 c || (code c =? 32)%nat
  || (code c =? 133)%nat || (code c =? 160)%nat.

(** [\w] on [str] patterns: alphanumeric characters and the underscore. *)
Definition is_word (c : ascii) : bool :=
  between 48 57 c || is_upper c || is_lower c || (code c =? 95)%nat
  || (code c =? 170)%nat || (code c =? 178)%nat || (code c =? 179)%nat
  || (code c =? 181)%nat || (code c =? 185)%nat || (code c =? 186)%nat
  || between 188 190 c || between 192 214 c || between 216 246 c
  || between 248 255 c.

(** [.] without [DOTALL]. *)
Definition dot (c : ascii) : bool := negb (Ascii.eqb c newline).

Definition dquote : ascii := "034"%char.

(** The classes [\s] plus the double quote, and anything but the double
    quote (written [\s&] and [^&] below, [&] standing for the double quote
    character). *)
Definition space_or_quote (c : ascii) : bool := is_space c || Ascii.eqb c dquote.
Definition not_quote (c : ascii) : bool := negb (Ascii.eqb c dquote).

(** The regular expressions of the source: literals, character classes,
    greedy repetition of a class, sequence, alternation, a capturing group,
    [^], [$] and [\b]. *)
Inductive regex : Type :=
| Eps
| Chr (c : ascii)
| Cls (p : ascii -> bool)
| Star (p : ascii -> bool)
| Cat (r1 r2 : regex)
| Alt (r1 r2 : regex)
| Grp (r : regex)
| Bol
| Eol
| WordB.

Declare Scope re_scope.
Delimit Scope re_scope with re.
Bind Scope re_scope with regex.
Notation "r1 >> r2" := (Cat r1 r2) (at level 41, right associativity) : re_scope.
Notation "r1 || r2" := (Alt r1 r2) : re_scope.

(** A literal run of characters. *)
Fixpoint lit (s : string) : regex :=
  match s with
  | EmptyString => Eps
  | String c s' => Cat (Chr c) (lit s')
  end.

(** [p+] *)
Definition Plus (p : ascii -> bool) : regex := Cat (Cls p) (Star p).

(** A match object: what the groups captured, and the text after the
    match. *)
Record found := { groups : list string; rest : string }.

Definition chr_eq (fl : flags) (c x : ascii) : bool :=
  if ignorecase fl then Ascii.eqb (lower c) (lower x) else Ascii.eqb c x.

Definition at_bol (fl : flags) (prev : option ascii) : bool :=
  match prev with
  | None => true
  | Some c => multiline fl && Ascii.eqb c newline
  end.

Definition at_eol (fl : flags) (s : string) : bool :=
  match s with
  | EmptyString => true
  | String c s' =>
      Ascii.eqb c newline
      && (multiline fl || match s' with EmptyString => true | _ => false end)
  end.

Definition word_before (prev : option ascii) : bool :=
  match prev with Some c => is_word c | None => false end.

Definition word_after (s : string) : bool :=
  match s with String c _ => is_word c | EmptyString => false end.

Definition or_else {A} (a b : option A) : option A :=
  match a with Some _ => a | None => b end.

(** Greedy repetition: take one more character first, give it back on
    failure. *)
Fixpoint star (p : ascii -> bool) (k : option ascii -> string -> option found)
    (prev : option ascii) (s : string) : option found :=
  match s with
  | String c s' =>
      if p c then or_else (star p k (Some c) s') (k prev s) else k prev s
  | EmptyString => k prev s
  end.

(** The text a group captured: what was consumed between [s] and [s']. *)
Definition consumed (s s' : string) : string :=
  substring 0 (String.length s - String.length s') s.

(** Backtracking matcher in continuation-passing style.  [prev] is the
    character before the current position ([None] at the start of the text),
    [s] the text from the current position on. *)
Fixpoint rmatch (fl : flags) (r : regex) (prev : option ascii) (s : string)
    (gs : list string)
    (k : option ascii -> string -> list string -> option found) : option found :=
  match r with
  | Eps => k prev s gs
  | Chr c =>
      match s with
      | String x s' => if chr_eq fl c x then k (Some x) s' gs else None
      | EmptyString => None
      end
  | Cls p =>
      match s with
      | String x s' => if p x then k (Some x) s' gs else None
      | EmptyString => None
      end
  | Star p => star p (fun prev' s' => k prev' s' gs) prev s
  | Cat r1 r2 =>
      rmatch fl r1 prev s gs (fun prev' s' gs' => rmatch fl r2 prev' s' gs' k)
  | Alt r1 r2 => or_else (rmatch fl r1 prev s gs k) (rmatch fl r2 prev s gs k)
  | Grp r' =>
      rmatch fl r' prev s gs
        (fun prev' s' gs' => k prev' s' (gs' ++ [consumed s s'])%list)
  | Bol => if at_bol fl prev then k prev s gs else None
  | Eol => if at_eol fl s then k prev s gs else None
  | WordB => if xorb (word_before prev) (word_after s) then k prev s gs else None
  end.

Definition finish (prev : option ascii) (s : string) (gs : list string)
  : option found :=
  Some {| groups := gs; rest := s |}.

(** [pattern.match] at one position. *)
Definition match_at (fl : flags) (r : regex) (prev : option ascii) (s : string)
  : option found :=
  rmatch fl r prev s [] finish.

(** [re.search]: the first position, from the left, where a match starts. *)
Fixpoint search_from (fl : flags) (r : regex) (prev : option ascii) (s : string)
  : option found :=
  match match_at fl r prev s with
  | Some m => Some m
  | None =>
      match s with
      | EmptyString => None
      | String c s' => search_from fl r (Some c) s'
      end
  end.

Definition search (fl : flags) (r : regex) (s : string) : option found :=
  search_from fl r None s.

(** Truth value of a match object. *)
Definition matched (m : option found) : bool :=
  match m with Some _ => true | None => false end.

(** [m.group(1)] *)
Definition group1 (m : found) : string := nth 0 (groups m) "".

(** One attempt of [findall] at a position: right after an empty match the
    next match of the same position must not be empty again. *)
Definition attempt (fl : flags) (r : regex) (must_advance : bool)
    (prev : option ascii) (s : string) : option found :=
  rmatch fl r prev s []
    (fun prev' s' gs =>
       if must_advance && (String.length s' =? String.length s)%nat then None
       else finish prev' s' gs).

(** The number of characters of [s] a match that starts there covers. *)
Definition width (s : string) (m : found) : nat :=
  String.length s - String.length (rest m).

(** [pattern.findall] for a pattern with one group: the matches from left
    to right, none overlapping another; [skip] characters still belong to the
    match found last. *)
Fixpoint findall_from (fl : flags) (r : regex) (prev : option ascii)
    (s : string) (skip : nat) : list string :=
  let onward (n : nat) :=
    match s with
    | String c s' => findall_from fl r (Some c) s' n
    | EmptyString => []
    end in
  match skip with
  | S n => onward n
  | 0 =>
      match attempt fl r false prev s with
      | None => onward 0
      | Some m =>
          if (width s m =? 0)%nat then
            group1 m
            :: match attempt fl r true prev s with
               | None => onward 0
               | Some m' => group1 m' :: onward (width s m' - 1)
               end
          else group1 m :: onward (width s m - 1)
      end
  end.

Definition findall (fl : flags) (r : regex) (s : string) : list string :=
  findall_from fl r None s 0.

End PyRe.

(** ** [openrelik_worker_common.reporting] *)

Module Reporting.

(** The ordered enum INFO < LOW < MEDIUM < HIGH < CRITICAL. *)
Inductive Priority := INFO | LOW | MEDIUM | HIGH | CRITICAL.

Definition rank (p : Priority) : nat :=
  match p with INFO => 0 | LOW => 1 | MEDIUM => 2 | HIGH => 3 | CRITICAL => 4 end.

Definition priority_le (p q : Priority) : Prop := rank p <= rank q.

(** What [Report()] starts with lies in the library, outside the workers. *)
Class ReportInit := { init_priority : Priority; init_summary : string }.

Inductive block :=
| Bullet (level : nat) (text : string)
| Paragraph (text : string).

(** A report with its sections; every analyzer adds exactly one section and
    fills it with blocks, in order. *)
Record Report := {
  title : option string;
  summary : string;
  priority : Priority;
  sections : list (list block)
}.

Definition new_report `{ReportInit} (t : option string) : Report :=
  {| title := t; summary := init_summary; priority := init_priority;
     sections := [] |}.

Definition set_summary (s : string) (r : Report) : Report :=
  {| title := title r; summary := s; priority := priority r;
     sections := sections r |}.

Definition set_priority (p : Priority) (r : Report) : Report :=
  {| title := title r; summary := summary r; priority := p;
     sections := sections r |}.

(** [report.add_section()] followed by the blocks later added to it. *)
Definition with_section (bs : list block) (r : Report) : Report :=
  {| title := title r; summary := summary r; priority := priority r;
     sections := sections r ++ [bs] |}.

(** [section.add_bullet(text)] has level 1. *)
Definition bullet (text : string) : block := Bullet 1 text.

Definition blocks (r : Report) : list block := concat (sections r).

Definition is_bullet (b : block) : bool :=
  match b with Bullet _ _ => true | Paragraph _ => false end.

Definition bullets (r : Report) : list block := List.filter is_bullet (blocks r).

End Reporting.

(** ** [analyzers/sshd_analyzer.py] *)

Module Sshd.
Import PyRe Reporting.
Section Analyzer.
Context `{ReportInit}.

(** [^\s*PermitRootLogin\s*(yes|prohibit-password|without-password)] *)
Definition permit_root_login_re : regex :=
  (Bol >> Star is_space >> lit "PermitRootLogin" >> Star is_space
   >> Grp (lit "yes" || lit "prohibit-password" || lit "without-password"))%re.

(** [^\s*PasswordAuthentication[\s&]*yes] *)
Definition password_authentication_re : regex :=
  (Bol >> Star is_space >> lit "PasswordAuthentication"
   >> Star space_or_quote >> lit "yes")%re.

(** [^\s*PermitEmptyPasswords[\s&]*Yes] *)
Definition permit_empty_passwords_re : regex :=
  (Bol >> Star is_space >> lit "PermitEmptyPasswords"
   >> Star space_or_quote >> lit "Yes")%re.

(** The three [if re.search(...)] statements: the bullets added, in order.
    [num_misconfigs] is their number. *)
Definition findings (config : string) : list block :=
  (if matched (search I_M permit_root_login_re config)
   then [bullet "Root login enabled."] else [])
  ++ (if matched (search I_M password_authentication_re config)
      then [bullet "Password authentication enabled."] else [])
  ++ (if matched (search I_M permit_empty_passwords_re config)
      then [bullet "Empty passwords permitted."] else []).

Definition analyze_config (config : string) : Report :=
  let details := findings config in
  let num_misconfigs := length details in
  let report := with_section details (new_report None) in
  if (0 <? num_misconfigs)%nat then
    set_priority HIGH (set_summary "Insecure SSHD configuration found" report)
  else
    set_priority LOW (set_summary "No issues found in SSH configuration" report).

End Analyzer.
End Sshd.

(** ** Python values the workers pass around *)

Module Py.

(** The exceptions the workers raise or let through. *)
Inductive exn :=
| RuntimeError (msg : string)
| ValueError (msg : string)
| TypeError
| AttributeError
| UnboundLocalError
| FileNotFoundError
| JSONDecodeError
| OSError.

Inductive result (A : Type) :=
| Ok (a : A)
| Raise (e : exn).
Arguments Ok {A} a.
Arguments Raise {A} e.

(** The error monad: [x ← m; k] runs [m] and stops at the first raise. *)
#[export] Instance result_ret : MRet result := @Ok.
#[export] Instance result_bind : MBind result :=
  fun A B f m => match m with Ok a => f a | Raise e => Raise e end.

(** [isinstance(e, RuntimeError)] *)
Definition is_runtime_error (e : exn) : bool :=
  match e with RuntimeError _ => true | _ => false end.

(** Decimal text of a natural number, as an f-string renders an [int]. *)
Definition str_of_nat (n : nat) : string :=
  NilEmpty.string_of_uint (Nat.to_uint n).

(** [sub in s] on strings. *)
Fixpoint contains (sub s : string) : bool :=
  String.prefix sub s
  || match s with String _ s' => contains sub s' | EmptyString => false end.

(** [s.split(sep)] for a one-character separator; [cur] is the part being
    read, reversed. *)
Fixpoint split_aux (sep : ascii) (s : string) (cur : string) : list string :=
  match s with
  | EmptyString => [cur]
  | String c s' =>
      if Ascii.eqb c sep then cur :: split_aux sep s' EmptyString
      else split_aux sep s' (cur +:+ String c EmptyString)
  end.

Definition split (sep : ascii) (s : string) : list string :=
  split_aux sep s EmptyString.

Fixpoint lstrip (s : string) : string :=
  match s with
  | String c s' => if PyRe.is_space c then lstrip s' else s
  | EmptyString => EmptyString
  end.

Fixpoint rstrip (s : string) : string :=
  match s with
  | String c s' =>
      match rstrip s' with
      | EmptyString => if PyRe.is_space c then EmptyString else String c EmptyString
      | t => String c t
      end
  | EmptyString => EmptyString
  end.

(** [s.strip()] *)
Definition strip (s : string) : string := rstrip (lstrip s).

(** A [dict] with string keys: insertion-ordered, one entry per key; setting a
    key that is present replaces its value where it stands. *)
Definition dict (V : Type) := list (string * V).

Fixpoint dict_set {V} (k : string) (v : V) (d : dict V) : dict V :=
  match d with
  | [] => [(k, v)]
  | (k', v') :: d' =>
      if String.eqb k k' then (k', v) :: d' else (k', v') :: dict_set k v d'
  end.

Fixpoint dict_get {V} (k : string) (d : dict V) : option V :=
  match d with
  | [] => None
  | (k', v') :: d' => if String.eqb k k' then Some v' else dict_get k d'
  end.

Definition dict_keys {V} (d : dict V) : list string := map fst d.

(** Lines and the double quote, for building text. *)
Definition nl : string := String PyRe.newline EmptyString.
Definition dq : string := String PyRe.dquote EmptyString.

End Py.

(** ** [analyzers/redis_analyzer.py] *)

Module Redis.
Import PyRe Reporting.
Section Analyzer.
Context `{ReportInit}.

(** [^\s*bind[\s&]*0\.0\.0\.0], IGNORECASE | MULTILINE *)
Definition bind_everywhere_re : regex :=
  (Bol >> Star is_space >> lit "bind" >> Star space_or_quote
   >> lit "0.0.0.0")%re.

(** [port\s+6379\b], IGNORECASE *)
Definition default_port_re : regex :=
  (lit "port" >> Plus is_space >> lit "6379" >> WordB)%re.

(** [^logfile\s+&[^&]+&$], MULTILINE *)
Definition missing_logs_re : regex :=
  (Bol >> lit "logfile" >> Plus is_space >> Chr dquote >> Plus not_quote
   >> Chr dquote >> Eol)%re.

Definition findings (config : string) : list block :=
  (if matched (search I_M bind_everywhere_re config)
   then [bullet "Redis listening on every IP"] else [])
  ++ (if matched (search I_only default_port_re config)
      then [bullet "Redis configured with default port (6379)"] else [])
  ++ (if negb (matched (search M_only missing_logs_re config))
      then [bullet "Log destination not configured"] else []).

Definition analyze_config (config : string) : Report :=
  if String.eqb config "" then
    set_priority LOW
      (set_summary "No Redis config found" (with_section [] (new_report None)))
  else
    let details := findings config in
    let num_misconfigs := length details in
    let report := with_section details (new_report None) in
    if (0 <? num_misconfigs)%nat then
      set_priority HIGH
        (set_summary "Insecure Redis configuration found" report)
    else report.

End Analyzer.
End Redis.

(** ** [analyzers/jupyter_analyzer.py] *)

Module Jupyter.
Import PyRe Reporting Py.
Section Analyzer.
Context `{ReportInit}.

(** [all(x in line for x in [a, b])] *)
Definition all_in (a b line : string) : bool :=
  contains a line && contains b line.

Definition remote_access (line : string) : list block :=
  if all_in "allow_remote_access" "True" line
  then [bullet "Remote access is enabled on this Jupyter Notebook."] else [].

(** The body of the loop for one line: the bullets it adds. *)
Definition scan_line (line : string) : list block :=
  if all_in "disable_check_xsrf" "True" line then
    [bullet "XSRF protection is disabled."]
  else if all_in "allow_root" "True" line then
    [bullet "Juypter Notebook allowed to run as root."]
  else if contains "NotebookApp.password" line then
    if all_in "required" "False" line then
      [bullet "Password is not required to access this Jupyter Notebook."]
    else if negb (contains "required" line) then
      let password_hash := split "=" line in
      (if (1 <? length password_hash)%nat
          && String.eqb (strip (nth 1 password_hash "")) "''"
       then [bullet "There is no password set for this Jupyter Notebook."]
       else [])
      ++ remote_access line
    else remote_access line
  else remote_access line.

Definition findings (config : string) : list block :=
  flat_map scan_line (split newline config).

Definition analyze_config (config : string) : Report :=
  let details := findings config in
  let num_misconfigs := length details in
  let report := with_section details (new_report None) in
  if (0 <? num_misconfigs)%nat then
    set_summary "Insecure Jupyter Notebook configuration found"
      (set_priority HIGH report)
  else
    set_summary "No issues found in Jupyter Notebook configuration."
      (set_priority LOW report).

End Analyzer.
End Jupyter.

(** ** [analyzers/tomcat_analyzer.py] *)

Module Tomcat.
Import PyRe Reporting Py.
Section Analyzer.
Context `{ReportInit}.

(** [( ^.*Deploying web application archive.* )], MULTILINE *)
Definition tomcat_deploy_re : regex :=
  Grp (Bol >> Star dot >> lit "Deploying web application archive"
       >> Star dot)%re.

(** [( ^.*POST /manager/html/upload.* )], MULTILINE *)
Definition tomcat_manager_activity_re : regex :=
  Grp (Bol >> Star dot >> lit "POST /manager/html/upload" >> Star dot)%re.

(** [<param-name>readonly</param-name>], IGNORECASE *)
Definition tomcat_readonly_re : regex := lit "<param-name>readonly</param-name>".

(** [<param-name>readonly</param-name>\s*<param-value>false</param-value>],
    IGNORECASE *)
Definition tomcat_readonly_false_re : regex :=
  (lit "<param-name>readonly</param-name>" >> Star is_space
   >> lit "<param-value>false</param-value>")%re.

(** [( ^.*password.* )], MULTILINE *)
Definition tomcat_user_passwords_re : regex :=
  Grp (Bol >> Star dot >> lit "password" >> Star dot)%re.

(** The three loops over [re.findall] and the read-only check: the bullets
    added, in order. *)
Definition findings (config : string) : list block :=
  map (fun password_entry => bullet ("tomcat user: " +:+ strip password_entry))
    (findall M_only tomcat_user_passwords_re config)
  ++ map (fun deployment_entry =>
            bullet ("Tomcat App Deployed: " +:+ strip deployment_entry))
       (findall M_only tomcat_deploy_re config)
  ++ map (fun mgmt_entry => bullet ("Tomcat Management: " +:+ strip mgmt_entry))
       (findall M_only tomcat_manager_activity_re config)
  ++ (if matched (search I_only tomcat_readonly_re config)
         && matched (search I_only tomcat_readonly_false_re config)
      then [bullet "Tomcat servlet IS NOT read-only"] else []).

Definition analyze_config (config : string) : Report :=
  let details := findings config in
  let num_misconfigs := length details in
  let report := with_section details (new_report None) in
  if (0 <? num_misconfigs)%nat then
    set_priority HIGH (set_summary "Tomcat analysis found misconfigs" report)
  else
    set_priority LOW
      (set_summary "No issues found in Tomcat configuration" report).

End Analyzer.
End Tomcat.

(** ** [analyzers/jenkins_analyzer.py] *)

Module Jenkins.
Import PyRe Reporting Py.

(** [<version>( .* )</version>]; the blanks around the group's content are
    not part of the pattern. *)
Definition version_re : regex :=
  (lit "<version>" >> Grp (Star dot) >> lit "</version>")%re.

(** [<passwordHash>#jbcrypt:( .* )</passwordHash>] *)
Definition password_hash_re : regex :=
  (lit "<passwordHash>#jbcrypt:" >> Grp (Star dot) >> lit "</passwordHash>")%re.

(** [<fullName>( .* )</fullName>] *)
Definition username_re : regex :=
  (lit "<fullName>" >> Grp (Star dot) >> lit "</fullName>")%re.

Definition _extract_jenkins_version (config : string) : option string :=
  match search NOFLAGS version_re config with
  | Some version_match => Some (group1 version_match)
  | None => None
  end.

Definition _extract_jenkins_credentials (config : string)
  : list (string * string) :=
  let password_hash_match := search NOFLAGS password_hash_re config in
  let username_match := search NOFLAGS username_re config in
  match username_match, password_hash_match with
  | Some u, Some p => [(group1 u, group1 p)]
  | _, _ => []
  end.

(** [{hash: username for username, hash in credentials}] *)
Definition credentials_registry (credentials : list (string * string))
  : dict string :=
  fold_left (fun d c => dict_set (snd c) (fst c) d) credentials [].

(** The bullets of the loop over the cracked passwords;
    [format] of a missing username ([None]) with [:s] is a [TypeError]. *)
Fixpoint password_bullets (registry : dict string)
    (weak_passwords : list (string * string)) : result (list block) :=
  match weak_passwords with
  | [] => Ok []
  | (password_hash, plaintext) :: more =>
      match dict_get password_hash registry with
      | None => Raise TypeError
      | Some username =>
          let line := "User " +:+ dq +:+ username +:+ dq
                      +:+ " with password " +:+ dq +:+ plaintext +:+ dq in
          rest ← password_bullets registry more;
          Ok (Bullet 2 line :: rest)
      end
  end.

Section Analyzer.
Context `{ReportInit}.

(** The password cracker, a subprocess behind
    [openrelik_worker_common.password_utils]: from the hashes to the
    (hash, plaintext) pairs it cracked, or a [RuntimeError]. *)
Variable bruteforce_password_hashes :
  list string -> result (list (string * string)).

Definition analyze_jenkins (version : option string)
    (credentials : list (string * string)) : result Report :=
  let credentials_registry := credentials_registry credentials in
  weak_passwords ← bruteforce_password_hashes (dict_keys credentials_registry);
  let version :=
    match version with
    | Some v => if String.eqb v "" then "Unknown" else v
    | None => "Unknown"
    end in
  let version_bullet := bullet ("Jenkins version: " +:+ version) in
  match weak_passwords with
  | _ :: _ =>
      let line := str_of_nat (length weak_passwords)
                  +:+ " weak password(s) found:" in
      users ← password_bullets credentials_registry weak_passwords;
      Ok (set_summary "Jenkins analysis found potential issues"
            (set_priority CRITICAL
               (with_section (version_bullet :: bullet line :: users)
                  (new_report None))))
  | [] =>
      if negb (length credentials_registry =? 0)%nat
         || negb (String.eqb version "Unknown")
      then
        Ok (set_summary
              ("Jenkins version " +:+ version +:+ " found with "
               +:+ str_of_nat (length credentials_registry)
               +:+ " credentials, but no issues detected")
              (set_priority MEDIUM
                 (with_section [version_bullet] (new_report None))))
      else
        Ok (set_summary "No Jenkins instance found"
              (set_priority LOW
                 (with_section [version_bullet] (new_report None))))
  end.

Definition analyze_config (config : string) : result Report :=
  let version :=
    match _extract_jenkins_version config with
    | Some v => if String.eqb v "" then None else Some v
    | None => None
    end in
  let credentials := ([] ++ _extract_jenkins_credentials config)%list in
  analyze_jenkins version credentials.

End Analyzer.
End Jenkins.

(** ** [container_drift.py]: normalising and reporting container drift *)

Module Drift.
Import Reporting Py.

(** What [json.loads] returns.  Numbers are the integers container-explorer
    writes (sizes). *)
Inductive json :=
| JNull
| JBool (b : bool)
| JNum (z : Z)
| JStr (s : string)
| JArr (items : list json)
| JObj (members : dict json).

(** Python truth value. *)
Definition truthy (v : json) : bool :=
  match v with
  | JNull => false
  | JBool b => b
  | JNum z => negb (z =? 0)%Z
  | JStr s => negb (String.eqb s "")
  | JArr items => negb (length items =? 0)%nat
  | JObj members => negb (length members =? 0)%nat
  end.

(** [isinstance(v, list)] *)
Definition is_list (v : json) : bool :=
  match v with JArr _ => true | _ => false end.

(** [d.get(key, default)] on a dict. *)
Definition get (key : string) (default : json) (d : dict json) : json :=
  match dict_get key d with Some v => v | None => default end.

(** One flattened record; the fields keep whatever value the tool wrote. *)
Record drift_record := {
  container_id : json;
  container_type : json;
  drift_status : string;
  file_name : json;
  file_path : json;
  file_size : string;
  file_type : json;
  file_modified : json;
  file_accessed : json;
  file_changed : json;
  file_birth : json;
  file_sha256 : json
}.

(** The keys of a record, in the order the dict literal lists them. *)
Definition record_keys : list string :=
  ["container_id"; "container_type"; "drift_status"; "file_name"; "file_path";
   "file_size"; "file_type"; "file_modified"; "file_accessed"; "file_changed";
   "file_birth"; "file_sha256"].

Definition record_values (r : drift_record) : list json :=
  [container_id r; container_type r; JStr (drift_status r); file_name r;
   file_path r; JStr (file_size r); file_type r; file_modified r;
   file_accessed r; file_changed r; file_birth r; file_sha256 r].

(** The tool's output file as [_get_container_drift_data] finds it. *)
Inductive tool_file :=
| NoFile
| NotJson
| JsonText (data : json).

(** What the task writes under its output path. *)
Inductive content :=
| JsonDump (data : list drift_record)
| CsvTable (header : list string) (rows : list (list json)).

(** [OutputFile.to_dict()], as far as the task reads it. *)
Record OutputFile := {
  path : string;
  display_name : string;
  extension : string
}.

Section Task.
Context `{ReportInit}.

(** Python's builtin [str] on a decoded JSON value. *)
Variable py_str : json -> string.

(** [create_output_file] of [openrelik_worker_common.file_utils], from base
    path, display name and extension; every call names a new file, which the
    counter in front stands for. *)
Variable create_output_file : nat -> string -> string -> string -> OutputFile.

Definition _create_drift_record (container_id container_type : json)
    (drift_status : string) (file_info : json) : result drift_record :=
  match file_info with
  | JObj d =>
      Ok {| container_id := container_id;
            container_type := container_type;
            drift_status := drift_status;
            file_name := get "file_name" (JStr "-") d;
            file_path := get "full_path" (JStr "-") d;
            file_size := py_str (get "file_size" (JStr "-") d);
            file_type := get "file_type" (JStr "-") d;
            file_modified := get "file_modified" (JStr "-") d;
            file_accessed := get "file_accessed" (JStr "-") d;
            file_changed := get "file_changed" (JStr "-") d;
            file_birth := get "file_birth" (JStr "-") d;
            file_sha256 := get "file_sha256" (JStr "-") d |}
  | _ => Raise AttributeError
  end.

(** [for file_info in files: drift_data.append(_create_drift_record(...))] *)
Fixpoint append_records (container_id container_type : json)
    (drift_status : string) (files : list json)
    (drift_data : list drift_record) : result (list drift_record) :=
  match files with
  | [] => Ok drift_data
  | file_info :: more =>
      r ← _create_drift_record container_id container_type drift_status
            file_info;
      append_records container_id container_type drift_status more
        (drift_data ++ [r])
  end.

(** The elements a [for] loop visits once the guard has shown a list. *)
Definition elements (v : json) : list json :=
  match v with JArr items => items | _ => [] end.

(** One of the two guarded loops of an item, for the key [key]. *)
Definition records_of_key (key drift_status : string)
    (container_id container_type : json) (item : dict json)
    (drift_data : list drift_record) : result (list drift_record) :=
  let files := get key JNull item in
  if truthy files && is_list files then
    append_records container_id container_type drift_status (elements files)
      drift_data
  else Ok drift_data.

(** The body of [for item in data]. *)
Definition flatten_item (item : json) (drift_data : list drift_record)
  : result (list drift_record) :=
  match item with
  | JObj d =>
      let container_id := get "ContainerID" (JStr "") d in
      let container_type := get "ContainerType" (JStr "") d in
      drift_data ← records_of_key "AddedOrModified" "File added or modified"
                     container_id container_type d drift_data;
      records_of_key "InaccessibleFiles" "File deleted"
        container_id container_type d drift_data
  | _ => Raise AttributeError
  end.

Fixpoint flatten_items (data : list json) (drift_data : list drift_record)
  : result (list drift_record) :=
  match data with
  | [] => Ok drift_data
  | item :: more =>
      drift_data ← flatten_item item drift_data;
      flatten_items more drift_data
  end.

(** Iterating a dict or a string yields strings, which have no [get];
    a number or [True] cannot be iterated. *)
Definition _flattern_container_drift_data (data : json)
  : result (list drift_record) :=
  if negb (truthy data) then Ok []
  else
    match data with
    | JArr items => flatten_items items []
    | JObj _ | JStr _ => Raise AttributeError
    | _ => Raise TypeError
    end.

Definition _get_container_drift_data (file : tool_file)
  : result (list drift_record) :=
  match file with
  | JsonText data => _flattern_container_drift_data data
  | NoFile => Ok []
  | NotJson => Ok []
  end.

(** One run of container-explorer: [subprocess.run] raises, or returns an
    exit status and leaves (or not) its output file. *)
Definition tool_run : Type := result (Z * tool_file).

Definition _run_container_explorer (run : tool_run)
  : result (list drift_record) :=
  p ← run;
  if negb (fst p =? 0)%Z then Ok []
  else _get_container_drift_data (snd p).

(** What [run_container_drift] meets on one mountpoint. *)
Record drift_env := {
  mkdir_temp : result unit;
  containerd_run : tool_run;
  docker_run : tool_run;
  temp_exists : bool;
  rmtree : result unit
}.

Definition run_container_drift (env : drift_env)
  : result (list drift_record) :=
  let drift_data := [] in
  _ ← mkdir_temp env;
  containerd_drift_data ← _run_container_explorer (containerd_run env);
  let drift_data :=
    if negb (length containerd_drift_data =? 0)%nat
    then drift_data ++ containerd_drift_data else drift_data in
  docker_drift_data ← _run_container_explorer (docker_run env);
  let drift_data :=
    if negb (length docker_drift_data =? 0)%nat
    then drift_data ++ docker_drift_data else drift_data in
  _ ← (if temp_exists env then rmtree env else Ok tt);
  Ok drift_data.

(** The files under the output path, and how many the task has created. *)
Record store := { files : gmap string content; created : nat }.

Definition write (p : string) (c : content) (st : store) : store :=
  {| files := <[p := c]> (files st); created := created st |}.

Definition fresh (st : store) : store :=
  {| files := files st; created := S (created st) |}.

Definition _create_drift_output_files (output_path : string)
    (data : list drift_record) (st : store) : list OutputFile * store :=
  match data with
  | [] => ([], st)
  | first :: _ =>
      let json_output_file :=
        create_output_file (created st) output_path "container_drift" "json" in
      let st := write (path json_output_file) (JsonDump data) (fresh st) in
      let csv_output_file :=
        create_output_file (created st) output_path "container_drift" "csv" in
      let header := record_keys in
      let st := write (path csv_output_file)
                  (CsvTable header (map record_values data)) (fresh st) in
      ([json_output_file; csv_output_file], st)
  end.

(** The loop of [create_task_report] that counts the records of every
    output file whose path contains [.json]. *)
Fixpoint count_records (st : store) (output_files : list OutputFile)
    (record_count : nat) : result nat :=
  match output_files with
  | [] => Ok record_count
  | output_file :: more =>
      let output_file_path := path output_file in
      if String.eqb output_file_path "" then
        count_records st more record_count
      else if negb (contains ".json" output_file_path) then
        count_records st more record_count
      else
        match files st !! output_file_path with
        | None => Raise FileNotFoundError
        | Some (CsvTable _ _) => Raise JSONDecodeError
        | Some (JsonDump data) =>
            count_records st more (record_count + length data)
        end
  end.

Definition create_task_report (st : store) (output_files : list OutputFile)
    (content : string) : result Report :=
  let b1 := bullet (str_of_nat (length output_files)
                    +:+ " output files created") in
  record_count ← count_records st output_files 0;
  let b2 := bullet (str_of_nat record_count
                    +:+ " files added, modified, or deleted") in
  let report :=
    with_section [b1; b2] (new_report (Some "Container Drift Report")) in
  Ok (if String.eqb content "" then report
      else with_section [Paragraph content] report).

End Task.
End Drift.

(** ** [floss/tasks.py] *)

Module Floss.
Import Py.

(** An input file and what running FLOSS on it does: [Popen] raises, or the
    process ends having written [lines] lines to the output file and some
    text to stderr. *)
Record input_file := {
  display_name : option string;
  path : option string;
  run : result (nat * string)
}.

(** An output file with the number of lines [count_file_lines] finds in it
    once the process has ended. *)
Record strings_file := {
  out_display_name : option string;
  out_lines : nat
}.

Record task_result := {
  output_files : list strings_file;
  command_string : string
}.

(** [" ".join(base_command)] *)
Definition base_command_string (min_length : option string) : string :=
  match min_length with
  | Some n => if String.eqb n "" then "floss -q" else "floss -q -n " +:+ n
  | None => "floss -q"
  end.

Definition missing_path_message (f : input_file) : string :=
  "Input file path is missing for "
  +:+ match display_name f with Some n => n | None => "unknown file" end.

(** The loop over the input files: the output files so far and the loop
    variable [output_file] as it stands after the loop. *)
Fixpoint process (input_files : list input_file)
    (output_files : list strings_file) (output_file : option strings_file)
  : result (list strings_file * option strings_file) :=
  match input_files with
  | [] => Ok (output_files, output_file)
  | f :: more =>
      match path f with
      | None => Raise (ValueError (missing_path_message f))
      | Some p =>
          if String.eqb p "" then Raise (ValueError (missing_path_message f))
          else
            r ← run f;
            let o := {| out_display_name := display_name f;
                        out_lines := fst r |} in
            if negb (String.eqb (snd r) "") then Raise (RuntimeError (snd r))
            else process more (output_files ++ [o]) (Some o)
      end
  end.

Definition command (input_files : list input_file)
    (min_length : option string) : result task_result :=
  p ← process input_files [] None;
  let output_files := fst p in
  let no_strings :=
    match snd p with
    | Some output_file => (out_lines output_file =? 0)%nat
    | None => true
    end in
  if (length output_files =? 0)%nat || no_strings then
    Raise (RuntimeError "FLOSS found no strings.")
  else
    Ok {| output_files := output_files;
          command_string := base_command_string min_length |}.

(** The total number of strings FLOSS extracted over all inputs. *)
Definition total_strings (input_files : list input_file) : nat :=
  list_sum (map (fun f => match run f with Ok r => fst r | Raise _ => 0 end)
              input_files).

End Floss.

(** ** The mounted-volume loops of [container_drift.py],
       [container_export.py] and [yara/tasks.py] *)

Module Mounting.
Import Py.

(** What the loops do to block devices, in order.  A device is named by the
    position of its input file. *)
Inductive event :=
| Mounted (device : nat)
| Umount (device : nat).

(** What the body of the mountpoint loop meets on one mountpoint: the
    container-root check, then the tool runs, which leave output files. *)
Record mountpoint := {
  container_root_exists : result bool;
  work : result (list string)
}.

(** An input file and how its [BlockDevice] behaves. *)
Record disk := {
  path : option string;
  is_disk_image : bool;
  construct : result unit;
  setup : result unit;
  mount : result (list mountpoint)
}.

(** The local variable [bd] (unbound at first), the calls made so far and the
    task's output files. *)
Record state := {
  bd : option nat;
  trace : list event;
  output_files : list string
}.

Definition initial : state := {| bd := None; trace := []; output_files := [] |}.

Definition bind_bd (i : nat) (st : state) : state :=
  {| bd := Some i; trace := trace st; output_files := output_files st |}.

Definition log (e : event) (st : state) : state :=
  {| bd := bd st; trace := trace st ++ [e]; output_files := output_files st |}.

Definition extend (fs : list string) (st : state) : state :=
  {| bd := bd st; trace := trace st; output_files := output_files st ++ fs |}.

(** [bd.umount()] in a [finally] clause: on whatever [bd] is bound to. *)
Definition finally_umount (st : state) : result state :=
  match bd st with
  | None => Raise UnboundLocalError
  | Some j => Ok (log (Umount j) st)
  end.

Definition no_path (d : disk) : bool :=
  match path d with
  | None => true
  | Some p => String.eqb p ""
  end.

(** *** [container_drift] *)

(** [for mountpoint in mountpoints]; output files are added to the task's
    list as each mountpoint is done. *)
Fixpoint drift_mountpoints (mountpoints : list mountpoint) (st : state)
  : state * option exn :=
  match mountpoints with
  | [] => (st, None)
  | mp :: more =>
      match container_root_exists mp with
      | Raise e => (st, Some e)
      | Ok false => drift_mountpoints more st
      | Ok true =>
          match work mp with
          | Raise e => (st, Some e)
          | Ok drift_output_files =>
              drift_mountpoints more (extend drift_output_files st)
          end
      end
  end.

(** The [try] block for the [i]-th input file: the state it leaves and the
    exception that ends it, if any. *)
Definition drift_try (i : nat) (d : disk) (st : state) : state * option exn :=
  match construct d with
  | Raise e => (st, Some e)
  | Ok _ =>
      let st := bind_bd i st in
      match setup d with
      | Raise e => (st, Some e)
      | Ok _ =>
          match mount d with
          | Raise e => (st, Some e)
          | Ok mountpoints =>
              let st := log (Mounted i) st in
              match mountpoints with
              | [] => (log (Umount i) st, None)
              | _ :: _ => drift_mountpoints mountpoints st
              end
          end
      end
  end.

(** [try ... except RuntimeError ... finally bd.umount()]: the state after
    the statement and the exception that leaves it. *)
Definition drift_disk (i : nat) (d : disk) (st : state) : state * option exn :=
  let '(st, raised) := drift_try i d st in
  match finally_umount st with
  | Raise e => (st, Some e)
  | Ok st =>
      match raised with
      | Some e => if is_runtime_error e then (st, None) else (st, Some e)
      | None => (st, None)
      end
  end.

Fixpoint drift_loop (i : nat) (input_files : list disk) (st : state)
  : state * option exn :=
  match input_files with
  | [] => (st, None)
  | d :: more =>
      if no_path d then drift_loop (S i) more st
      else
        match drift_disk i d st with
        | (st, Some e) => (st, Some e)
        | (st, None) => drift_loop (S i) more st
        end
  end.

Definition container_drift (input_files : list disk) : state * option exn :=
  drift_loop 0 input_files initial.

(** *** [container_export] *)

(** The export files of a disk are collected in a list of the [try] block
    and reach the task's list only when every mountpoint is done. *)
Fixpoint export_mountpoints (mountpoints : list mountpoint)
    (export_files : list string) : result (list string) :=
  match mountpoints with
  | [] => Ok export_files
  | mp :: more =>
      root ← container_root_exists mp;
      if negb root then export_mountpoints more export_files
      else
        container_export_files ← work mp;
        export_mountpoints more (export_files ++ container_export_files)
  end.

Definition export_try (i : nat) (d : disk) (st : state) : state * option exn :=
  match construct d with
  | Raise e => (st, Some e)
  | Ok _ =>
      let st := bind_bd i st in
      match setup d with
      | Raise e => (st, Some e)
      | Ok _ =>
          match mount d with
          | Raise e => (st, Some e)
          | Ok mountpoints =>
              let st := log (Mounted i) st in
              match mountpoints with
              | [] => (log (Umount i) st, None)
              | _ :: _ =>
                  match export_mountpoints mountpoints [] with
                  | Raise e => (st, Some e)
                  | Ok export_files => (extend export_files st, None)
                  end
              end
          end
      end
  end.

(** [except RuntimeError] and [except Exception] swallow whatever the block
    raised; only the [finally] clause can raise out of the statement. *)
Definition export_disk (i : nat) (d : disk) (st : state) : state * option exn :=
  let '(st, _) := export_try i d st in
  match finally_umount st with
  | Raise e => (st, Some e)
  | Ok st => (st, None)
  end.

Fixpoint export_loop (i : nat) (input_files : list disk) (st : state)
  : state * option exn :=
  match input_files with
  | [] => (st, None)
  | d :: more =>
      match export_disk i d st with
      | (st, Some e) => (st, Some e)
      | (st, None) => export_loop (S i) more st
      end
  end.

Definition container_export (input_files : list disk) : state * option exn :=
  export_loop 0 input_files initial.

(** *** The YARA scan *)

(** The loop inside the [try] block: the devices appended to
    [disks_mounted], the calls made, and the exception that ends the loop. *)
Fixpoint yara_inputs (mount_disk_images : bool) (i : nat)
    (input_files : list disk) (disks_mounted : list nat) (tr : list event)
  : list nat * list event * option exn :=
  match input_files with
  | [] => (disks_mounted, tr, None)
  | d :: more =>
      match path d with
      | None => yara_inputs mount_disk_images (S i) more disks_mounted tr
      | Some _ =>
          if mount_disk_images && is_disk_image d then
            match construct d with
            | Raise e => (disks_mounted, tr, Some e)
            | Ok _ =>
                match setup d with
                | Raise e => (disks_mounted, tr, Some e)
                | Ok _ =>
                    match mount d with
                    | Raise e => (disks_mounted, tr, Some e)
                    | Ok _ =>
                        yara_inputs mount_disk_images (S i) more
                          (disks_mounted ++ [i]) (tr ++ [Mounted i])
                    end
                end
            end
          else yara_inputs mount_disk_images (S i) more disks_mounted tr
      end
  end.

(** The [try] statement of the scan: [scan] is what starting and awaiting
    the scanner does.  The [finally] clause unmounts every device of
    [disks_mounted]. *)
Definition yara_scan (mount_disk_images : bool) (input_files : list disk)
    (scan : result unit) : list event * option exn :=
  let '(disks_mounted, tr, raised) :=
    yara_inputs mount_disk_images 0 input_files [] [] in
  let raised :=
    match raised with
    | Some e => Some e
    | None => match scan with Raise e => Some e | Ok _ => None end
    end in
  let tr := tr ++ map Umount disks_mounted in
  match raised with
  | Some e => if is_runtime_error e then (tr, None) else (tr, Some e)
  | None => (tr, None)
  end.

(** How often [umount] was called on a device, and whether it was mounted. *)
Definition is_umount (i : nat) (e : event) : bool :=
  match e with Umount j => (i =? j)%nat | Mounted _ => false end.

Definition is_mounted (i : nat) (e : event) : bool :=
  match e with Mounted j => (i =? j)%nat | Umount _ => false end.

Definition umount_calls (i : nat) (tr : list event) : nat :=
  length (List.filter (is_umount i) tr).

Definition reached_mounted (i : nat) (tr : list event) : bool :=
  existsb (is_mounted i) tr.

End Mounting.

(** * Notions and scenarios the properties are stated with *)

(** ** Letter case, line starts and first matches *)

Module ReNotions.
Import PyRe Reporting.

(** The text with every letter in lower case. *)
Fixpoint lower_s (s : string) : string :=
  match s with
  | EmptyString => EmptyString
  | String c s' => String (lower c) (lower_s s')
  end.

(** Two texts that differ in letter case only. *)
Definition same_letters (s t : string) : Prop := lower_s s = lower_s t.



(** The character before the position that follows [pre]. *)
Fixpoint prev_of (prev : option ascii) (pre : string) : option ascii :=
  match pre with
  | EmptyString => prev
  | String c pre' => prev_of (Some c) pre'
  end.

(** [m] is the match that starts at the leftmost position of [config] where
    the pattern matches. *)
Definition first_match (fl : flags) (r : regex) (config : string) (m : found)
  : Prop :=
  exists pre post,
    config = pre +:+ post
    /\ match_at fl r (prev_of None pre) post = Some m
    /\ forall pre1 post1,
        pre = pre1 +:+ post1 -> post1 <> "" ->
        match_at fl r (prev_of None pre1) (post1 +:+ post) = None.






End ReNotions.

(** ** What the Jenkins analysis finds *)

Module JenkinsNotions.
Import Py Reporting.

(** The username of the last credential that carries the hash [h]. *)
Definition last_username (h : string) (credentials : list (string * string))
  : option string :=
  option_map fst (List.find (fun c => String.eqb h (snd c)) (rev credentials)).

(** A version was extracted and it is not the placeholder. *)
Definition known_version (version : option string) : bool :=
  match version with
  | Some v => negb (String.eqb v "") && negb (String.eqb v "Unknown")
  | None => false
  end.

Definition is_level2 (b : block) : bool :=
  match b with Bullet 2 _ => true | _ => false end.

(** The findings of a Jenkins analysis, after the spec's data model: the
    version that was extracted, the credentials, and the passwords that were
    cracked. *)
Inductive jenkins_finding :=
| VersionFinding (version : string)
| CredentialFinding (username password_hash : string)
| CrackedPassword (password_hash plaintext : string).

Definition jenkins_findings (version : option string)
    (credentials weak : list (string * string)) : list jenkins_finding :=
  match version with
  | Some v => if String.eqb v "" then [] else [VersionFinding v]
  | None => []
  end
  ++ map (fun c => CredentialFinding (fst c) (snd c)) credentials
  ++ map (fun w => CrackedPassword (fst w) (snd w)) weak.

End JenkinsNotions.

(** ** Malformed drift values *)

Module DriftNotions.
Import Py Drift.

(** A value that is not a list with at least one element: a missing key
    (read as [None]), [None], an empty list, or anything that is not a
    list. *)
Definition not_a_filled_list (v : json) : Prop :=
  match v with JArr (_ :: _) => False | _ => True end.

End DriftNotions.

(** ** Clean FLOSS runs *)

Module FlossNotions.
Import Py Floss.

(** An input on which FLOSS runs cleanly and writes [n] strings. *)
Definition clean_input (name : string) (n : nat) : input_file :=
  {| display_name := Some name; path := Some ("/input/" +:+ name);
     run := Ok (n, "") |}.

Definition is_clean (f : input_file) : Prop :=
  exists p n, path f = Some p /\ p <> "" /\ run f = Ok (n, "").

Definition lines_of (f : input_file) : nat :=
  match run f with Ok r => fst r | Raise _ => 0 end.

End FlossNotions.

(** ** Disk images *)

Module MountingNotions.
Import Py Mounting.

(** A disk image that mounts, with no mountpoint. *)
Definition disk_without_mountpoints : disk :=
  {| path := Some "/images/disk.raw"; is_disk_image := true;
     construct := Ok tt; setup := Ok tt; mount := Ok [] |}.

(** A disk image with one mountpoint that holds no container root, and an
    input whose [BlockDevice] cannot be constructed. *)
Definition disk_without_containers : disk :=
  {| path := Some "/images/first.raw"; is_disk_image := true;
     construct := Ok tt; setup := Ok tt;
     mount := Ok [{| container_root_exists := Ok false; work := Ok [] |}] |}.

Definition broken_disk : disk :=
  {| path := Some "/images/second.raw"; is_disk_image := true;
     construct := Raise (RuntimeError "not a disk image"); setup := Ok tt;
     mount := Ok [] |}.

End MountingNotions.

(** ** Scenarios *)

(** The three insecure SSHD directives, one per line. *)
Definition sshd_three_lines : string :=
  "PermitRootLogin yes" +:+ Py.nl +:+ "PasswordAuthentication yes" +:+ Py.nl
  +:+ "PermitEmptyPasswords yes".

(** A [Report()] that starts at LOW with an empty summary. *)
Definition sample_init : Reporting.ReportInit :=
  {| Reporting.init_priority := Reporting.LOW; Reporting.init_summary := "" |}.

(** The bullet for alice's cracked password. *)
Definition alice_line : string :=
  "User " +:+ Py.dq +:+ "alice" +:+ Py.dq +:+ " with password "
  +:+ Py.dq +:+ "pw123" +:+ Py.dq.

Definition alice_bullet : Reporting.block := Reporting.Bullet 2 alice_line.

(** [str] on the values of the scenarios below. *)
Definition sample_py_str (v : Drift.json) : string :=
  match v with
  | Drift.JStr s => s
  | Drift.JNum z => Py.str_of_nat (Z.to_nat z)
  | _ => "None"
  end.

(** A well-formed drift entry, and one whose file lists are a string and
    [None]. *)
Definition sample_entry : Drift.json :=
  Drift.JObj [("ContainerID", Drift.JStr "c1");
              ("ContainerType", Drift.JStr "docker");
              ("AddedOrModified",
               Drift.JArr [Drift.JObj [("file_name", Drift.JStr "btmp");
                                       ("file_size", Drift.JNum 0)]])].

Definition malformed_entry : Py.dict Drift.json :=
  [("ContainerID", Drift.JStr "c2");
   ("AddedOrModified", Drift.JStr "oops");
   ("InaccessibleFiles", Drift.JNull)].

(** Tool output with 3 records for containerd and 4 for docker. *)
Definition sample_file (name : string) : Drift.json :=
  Drift.JObj [("file_name", Drift.JStr name); ("file_size", Drift.JNum 0)].

Definition sample_containerd_json : Drift.json :=
  Drift.JArr
    [Drift.JObj [("ContainerID", Drift.JStr "c1");
                 ("ContainerType", Drift.JStr "containerd");
                 ("AddedOrModified",
                  Drift.JArr [sample_file "btmp"; sample_file "wtmp"]);
                 ("InaccessibleFiles", Drift.JArr [sample_file "lastlog"])]].

Definition sample_docker_json : Drift.json :=
  Drift.JArr
    [Drift.JObj [("ContainerID", Drift.JStr "d1");
                 ("ContainerType", Drift.JStr "docker");
                 ("AddedOrModified",
                  Drift.JArr [sample_file "a"; sample_file "b";
                              sample_file "c"; sample_file "d"])]].

Definition sample_env : Drift.drift_env :=
  {| Drift.mkdir_temp := Py.Ok tt;
     Drift.containerd_run := Py.Ok (0%Z, Drift.JsonText sample_containerd_json);
     Drift.docker_run := Py.Ok (0%Z, Drift.JsonText sample_docker_json);
     Drift.temp_exists := true;
     Drift.rmtree := Py.Ok tt |}.

Definition records_or_nil (r : Py.result (list Drift.drift_record))
  : list Drift.drift_record :=
  match r with Py.Ok l => l | Py.Raise _ => [] end.

(** Output files named by their number under the base path. *)
Definition sample_create_output_file (n : nat) (base name ext : string)
  : Drift.OutputFile :=
  {| Drift.path := base +:+ "/" +:+ Py.str_of_nat n +:+ "." +:+ ext;
     Drift.display_name := name +:+ "." +:+ ext;
     Drift.extension := ext |}.

Definition empty_store : Drift.store :=
  {| Drift.files := ∅; Drift.created := 0 |}.

(** A config with two users: the first has a name only, the second a name
    and a password hash. *)
Definition two_users : string :=
  "<user><fullName>alice</fullName></user>" +:+ Py.nl
  +:+ "<user><fullName>bob</fullName>" +:+ Py.nl
  +:+ "<passwordHash>#jbcrypt:HASHB</passwordHash></user>".

(** * Properties *)

(** ** The SSHD scenario *)

(** C8: an SSHD config with [PermitRootLogin yes], [PasswordAuthentication yes]
    and [PermitEmptyPasswords yes] on three lines yields a report with exactly
    3 bullets, priority HIGH and the summary "Insecure SSHD configuration
    found". *)
Theorem C8_sshd_three_directives `{Reporting.ReportInit} :
  let report := Sshd.analyze_config sshd_three_lines in
  Reporting.bullets report
    = [Reporting.bullet "Root login enabled.";
       Reporting.bullet "Password authentication enabled.";
       Reporting.bullet "Empty passwords permitted."]
  /\ length (Reporting.bullets report) = 3
  /\ Reporting.priority report = Reporting.HIGH
  /\ Reporting.summary report = "Insecure SSHD configuration found".
Proof. cbv zeta. repeat split; vm_compute; reflexivity. Qed.

(** ** Unmounting *)

Module MountingFacts.
Import Py Mounting MountingNotions.

Lemma drift_mountpoints_trace mps st :
  trace (fst (drift_mountpoints mps st)) = trace st
  /\ bd (fst (drift_mountpoints mps st)) = bd st.
Proof.
  revert st. induction mps as [|mp mps IH]; intros st; simpl; [easy|].
  destruct (container_root_exists mp) as [[|]|e]; simpl; auto.
  destruct (work mp) as [fs|e]; simpl; auto.
  destruct (IH (extend fs st)) as [-> ->]. easy.
Qed.

(** With at least one mountpoint, the drift loop unmounts a single disk
    exactly once, whatever the mountpoints do: skips, tool failures and
    exceptions included. *)
Lemma drift_one_disk_with_mountpoints d mp mps :
  no_path d = false -> construct d = Ok tt -> setup d = Ok tt ->
  mount d = Ok (mp :: mps) ->
  trace (fst (container_drift [d])) = [Mounted 0; Umount 0].
Proof.
  intros Hp Hc Hs Hm. unfold container_drift. simpl. rewrite Hp.
  unfold drift_disk, drift_try. rewrite Hc, Hs, Hm.
  set (st := log (Mounted 0) (bind_bd 0 initial)).
  destruct (drift_mountpoints_trace (mp :: mps) st) as [Ht Hb].
  destruct (drift_mountpoints (mp :: mps) st) as [st' raised].
  simpl in Ht, Hb. unfold finally_umount. rewrite Hb. simpl.
  destruct raised as [e|]; [destruct (is_runtime_error e)|];
    simpl; rewrite Ht; reflexivity.
Qed.

(** When the [BlockDevice] of the next input cannot be constructed, [bd] is
    still bound to the device before it, and the [finally] clause unmounts
    that one again. *)
Lemma drift_stale_device_umounted_again :
  trace (fst (container_drift [disk_without_containers; broken_disk]))
  = [Mounted 0; Umount 0; Umount 0].
Proof. reflexivity. Qed.

(** The devices the YARA loop appends are fresh and come in input order. *)
Lemma yara_inputs_spec flag inputs : forall i dm tr,
  exists new,
    fst (fst (yara_inputs flag i inputs dm tr)) = dm ++ new
    /\ snd (fst (yara_inputs flag i inputs dm tr)) = tr ++ map Mounted new
    /\ Forall (fun j => i <= j) new
    /\ NoDup new.
Proof.
  induction inputs as [|d more IH]; intros i dm tr; simpl.
  - exists []. rewrite !app_nil_r. repeat split; constructor.
  - assert (Hskip : exists new,
        fst (fst (yara_inputs flag (S i) more dm tr)) = dm ++ new
        /\ snd (fst (yara_inputs flag (S i) more dm tr)) = tr ++ map Mounted new
        /\ Forall (fun j => i <= j) new /\ NoDup new).
    { destruct (IH (S i) dm tr) as (new & H1 & H2 & H3 & H4).
      exists new. repeat split; auto.
      eapply Forall_impl; [exact H3|]. simpl. intros; lia. }
    assert (Hstop : exists new : list nat,
        dm = dm ++ new /\ tr = tr ++ map Mounted new
        /\ Forall (fun j => i <= j) new /\ NoDup new).
    { exists []. rewrite !app_nil_r. repeat split; constructor. }
    destruct (path d); [|exact Hskip].
    destruct (flag && is_disk_image d); [|exact Hskip].
    destruct (construct d); [|exact Hstop].
    destruct (setup d); [|exact Hstop].
    destruct (mount d); [|exact Hstop].
    destruct (IH (S i) (dm ++ [i]) (tr ++ [Mounted i]))
      as (new & H1 & H2 & H3 & H4).
    exists (i :: new). rewrite H1, H2. simpl.
    rewrite <- !app_assoc. simpl. repeat split; auto.
    + constructor; [lia|]. eapply Forall_impl; [exact H3|]. simpl. intros; lia.
    + constructor; [|exact H4]. intros Hin.
      rewrite Forall_forall in H3. apply H3 in Hin. lia.
Qed.

Lemma umount_calls_app i tr1 tr2 :
  umount_calls i (tr1 ++ tr2) = umount_calls i tr1 + umount_calls i tr2.
Proof. unfold umount_calls. now rewrite List.filter_app, length_app. Qed.

Lemma umount_calls_mounted i new : umount_calls i (map Mounted new) = 0.
Proof. induction new; simpl; auto. Qed.

Lemma reached_mounted_umounts i new :
  reached_mounted i (map Umount new) = false.
Proof. induction new; simpl; auto. Qed.

Lemma reached_mounted_in i new :
  reached_mounted i (map Mounted new) = true -> In i new.
Proof.
  induction new as [|j new IH]; simpl; [discriminate|].
  destruct (Nat.eqb_spec i j); [auto|]. simpl. auto.
Qed.

Lemma umount_calls_absent i new :
  ~ In i new -> umount_calls i (map Umount new) = 0.
Proof.
  induction new as [|a new IH]; simpl; [easy|]. intros Hn.
  unfold umount_calls in *. simpl.
  destruct (Nat.eqb_spec i a) as [->|Hne]; [tauto|]. apply IH. tauto.
Qed.

Lemma umount_calls_once i new :
  NoDup new -> In i new -> umount_calls i (map Umount new) = 1.
Proof.
  induction 1 as [|j new Hj Hnd IH]; simpl; [easy|].
  change (umount_calls i (Umount j :: map Umount new))
    with (umount_calls i ([Umount j] ++ map Umount new)).
  rewrite umount_calls_app. unfold umount_calls at 1. simpl.
  destruct (Nat.eqb_spec i j) as [->|Hne]; simpl.
  - intros _. rewrite umount_calls_absent; auto.
    now rewrite <- list_elem_of_In.
  - intros [->|Hin]; [contradiction|auto].
Qed.

(** The YARA scan, the sibling of the two container loops, unmounts every
    device it mounted exactly once: also when a later device fails to mount,
    when the scanner cannot be started, and on any other exception. *)
Lemma yara_umounts_exactly_once flag inputs scan i :
  let tr := fst (yara_scan flag inputs scan) in
  reached_mounted i tr = true -> umount_calls i tr = 1.
Proof.
  unfold yara_scan.
  destruct (yara_inputs_spec flag inputs 0 [] []) as (new & H1 & H2 & _ & Hnd).
  destruct (yara_inputs flag 0 inputs [] []) as [[dm tr] raised].
  simpl in H1, H2. subst dm tr.
  assert (Hgoal : reached_mounted i (map Mounted new ++ map Umount new) = true ->
                  umount_calls i (map Mounted new ++ map Umount new) = 1).
  { unfold reached_mounted. rewrite existsb_app.
    fold (reached_mounted i (map Mounted new)).
    fold (reached_mounted i (map Umount new)).
    rewrite reached_mounted_umounts, orb_false_r. intros Hin.
    apply reached_mounted_in in Hin.
    rewrite umount_calls_app, umount_calls_mounted. simpl.
    now apply umount_calls_once. }
  destruct raised as [e|]; [destruct (is_runtime_error e)|destruct scan as [u|e]];
    simpl; auto.
  destruct (is_runtime_error e); simpl; auto.
Qed.

End MountingFacts.

(** C1: for every disk that reaches the Mounted state, [umount] is invoked
    exactly once on every path out of processing that disk.  The container
    loops break this on the path where [mount()] returns no mountpoints: the
    block unmounts, and the [finally] clause unmounts again.  On such a disk
    both loops call [umount] twice, where the YARA scan calls it once. *)
Theorem C1_umount_twice_without_mountpoints :
  let d := MountingNotions.disk_without_mountpoints in
  let drift := Mounting.trace (fst (Mounting.container_drift [d])) in
  let export := Mounting.trace (fst (Mounting.container_export [d])) in
  let yara := fst (Mounting.yara_scan true [d] (Py.Ok tt)) in
  Mounting.reached_mounted 0 drift = true
  /\ Mounting.umount_calls 0 drift = 2
  /\ Mounting.reached_mounted 0 export = true
  /\ Mounting.umount_calls 0 export = 2
  /\ Mounting.reached_mounted 0 yara = true
  /\ Mounting.umount_calls 0 yara = 1.
Proof. cbv zeta. repeat split; reflexivity. Qed.

(** ** FLOSS *)

Module FlossFacts.
Import Py Floss FlossNotions.

Lemma process_clean inputs : forall outs o,
  Forall is_clean inputs ->
  exists outs',
    process inputs outs o
    = Ok (outs ++ outs',
          match rev inputs with
          | [] => o
          | f :: _ => Some {| out_display_name := display_name f;
                              out_lines := lines_of f |}
          end)
    /\ length outs' = length inputs.
Proof.
  induction inputs as [|f more IH]; intros outs o Hall; simpl.
  - exists []. now rewrite app_nil_r.
  - inversion Hall as [|? ? (p & n & Hp & Hne & Hr) Hmore]; subst.
    rewrite Hp. apply String.eqb_neq in Hne. rewrite Hne, Hr. simpl.
    destruct (IH (outs ++ [{| out_display_name := display_name f;
                              out_lines := n |}])
                 (Some {| out_display_name := display_name f;
                          out_lines := n |}) Hmore) as (outs' & -> & Hlen).
    eexists (_ :: outs'). rewrite <- app_assoc. simpl. split; [|now rewrite Hlen].
    f_equal. f_equal.
    destruct (rev more) as [|g l] eqn:E; simpl; [|reflexivity].
    unfold lines_of. now rewrite Hr.
Qed.

(** What the final check of the task decides on, when FLOSS runs cleanly on
    every input: whether the output of the last input is empty. *)
Lemma command_error_iff_last_empty inputs min_length :
  Forall is_clean inputs ->
  command inputs min_length = Raise (RuntimeError "FLOSS found no strings.")
  <-> match rev inputs with [] => True | f :: _ => lines_of f = 0 end.
Proof.
  intros Hall. unfold command.
  destruct (process_clean inputs [] None Hall) as (outs' & -> & Hlen).
  simpl. destruct inputs as [|f more]; simpl in *.
  - destruct outs'; [|discriminate]. simpl. tauto.
  - destruct outs' as [|o outs']; [discriminate|]. simpl.
    destruct (rev more ++ [f]) as [|g l] eqn:E.
    + now destruct (rev more).
    + simpl. destruct (Nat.eqb_spec (lines_of g) 0) as [->|Hne]; simpl.
      * tauto.
      * split; [discriminate|contradiction].
Qed.

End FlossFacts.

(** C2: the FLOSS task fails with "FLOSS found no strings." if and only if
    the inputs yield no string in total.  The task decides on the output of
    the last input alone: with 5 strings from a first file and none from a
    second, the total is 5 and the task still fails with that message. *)
Theorem C2_floss_fails_despite_strings :
  let inputs := [FlossNotions.clean_input "first.bin" 5;
                 FlossNotions.clean_input "second.bin" 0] in
  Floss.total_strings inputs = 5
  /\ Floss.command inputs None
     = Py.Raise (Py.RuntimeError "FLOSS found no strings.").
Proof. cbv zeta. split; reflexivity. Qed.

(** ** The Jenkins analyzer *)

Module JenkinsFacts.
Import Py Reporting Jenkins JenkinsNotions.

Lemma dict_get_set {V} h k (v : V) d :
  dict_get h (dict_set k v d) = if String.eqb h k then Some v else dict_get h d.
Proof.
  induction d as [|[k' v'] d IH]; simpl.
  - reflexivity.
  - destruct (String.eqb_spec k k') as [->|Hk]; simpl.
    + now destruct (String.eqb h k').
    + destruct (String.eqb_spec h k') as [->|Hh].
      * apply String.eqb_neq in Hk. rewrite String.eqb_sym in Hk. now rewrite Hk.
      * exact IH.
Qed.

Lemma dict_set_not_nil {V} k (v : V) d : dict_set k v d <> [].
Proof. destruct d as [|[k' v'] d]; simpl; [easy|]. now destruct (String.eqb k k'). Qed.

Lemma find_app {A} (f : A -> bool) l1 l2 :
  List.find f (l1 ++ l2)
  = match List.find f l1 with Some x => Some x | None => List.find f l2 end.
Proof. induction l1 as [|a l1 IH]; simpl; [easy|]. now destruct (f a). Qed.

Lemma registry_fold_get h credentials : forall d,
  dict_get h (fold_left (fun d c => dict_set (snd c) (fst c) d) credentials d)
  = match last_username h credentials with
    | Some u => Some u
    | None => dict_get h d
    end.
Proof.
  unfold last_username.
  induction credentials as [|[u k] credentials IH]; intros d; simpl; [easy|].
  rewrite IH, find_app. simpl.
  destruct (List.find _ (rev credentials)) as [[u' k']|]; simpl; [easy|].
  rewrite dict_get_set. now destruct (String.eqb h k).
Qed.

(** The registry maps a hash to the last username listed with it. *)
Lemma registry_get h credentials :
  dict_get h (credentials_registry credentials) = last_username h credentials.
Proof.
  unfold credentials_registry. rewrite registry_fold_get.
  now destruct (last_username h credentials).
Qed.

Lemma registry_fold_not_nil credentials : forall d : dict string,
  d <> [] ->
  fold_left (fun d c => dict_set (snd c) (fst c) d) credentials d <> [].
Proof.
  induction credentials as [|c credentials IH]; intros d Hd; simpl; [easy|].
  apply IH, dict_set_not_nil.
Qed.

Lemma registry_nil credentials :
  (length (credentials_registry credentials) =? 0)%nat
  = match credentials with [] => true | _ => false end.
Proof.
  destruct credentials as [|c credentials]; [reflexivity|].
  unfold credentials_registry. simpl.
  pose proof (registry_fold_not_nil credentials
                (dict_set (snd c) (fst c) []) (dict_set_not_nil _ _ _)) as Hn.
  destruct (fold_left _ credentials _); [contradiction|reflexivity].
Qed.

Lemma registry_has h u credentials :
  In (u, h) credentials ->
  exists u', dict_get h (credentials_registry credentials) = Some u'.
Proof.
  intros Hin. rewrite registry_get. unfold last_username.
  destruct (List.find _ (rev credentials)) as [[u' k']|] eqn:E; simpl; eauto.
  apply in_rev in Hin.
  pose proof (List.find_none _ _ E (u, h) Hin) as Hf. simpl in Hf.
  rewrite String.eqb_refl in Hf. discriminate.
Qed.

(** Every cracked hash that is in the registry gets its bullet. *)
Lemma password_bullets_total registry weak :
  (forall h p, In (h, p) weak -> exists u, dict_get h registry = Some u) ->
  exists bs, password_bullets registry weak = Ok bs
             /\ List.filter is_level2 bs = bs /\ length bs = length weak.
Proof.
  induction weak as [|[h p] weak IH]; intros Hall; simpl.
  - exists []. auto.
  - destruct (Hall h p) as [u ->]; [now left|].
    destruct IH as (bs & -> & Hf & Hl).
    { intros h' p' Hin. apply (Hall h' p'). now right. }
    simpl. eexists. split; [reflexivity|]. simpl. now rewrite Hf, Hl.
Qed.

Section Analysis.
Context `{ReportInit}.
Variable crack : list string -> result (list (string * string)).

(** The report of [analyze_jenkins] and its priority, once the cracker has
    returned [weak] and every cracked hash belongs to a credential. *)
Lemma analyze_jenkins_priority version credentials weak :
  crack (dict_keys (credentials_registry credentials)) = Ok weak ->
  (forall h p, In (h, p) weak -> exists u, In (u, h) credentials) ->
  exists report,
    analyze_jenkins crack version credentials = Ok report
    /\ priority report
       = match weak with
         | _ :: _ => CRITICAL
         | [] =>
             if negb (match credentials with [] => true | _ => false end)
                || known_version version
             then MEDIUM else LOW
         end.
Proof.
  intros Hcrack Hin. unfold analyze_jenkins. rewrite Hcrack. simpl.
  destruct weak as [|w weak].
  - rewrite registry_nil.
    assert (Hv : negb (String.eqb
                         match version with
                         | Some v => if String.eqb v "" then "Unknown" else v
                         | None => "Unknown"
                         end "Unknown") = known_version version).
    { destruct version as [v|]; simpl; [|reflexivity].
      destruct (String.eqb v "") eqn:E; simpl; reflexivity. }
    rewrite Hv.
    destruct (negb _ || known_version version); eexists; split; reflexivity.
  - destruct (password_bullets_total (credentials_registry credentials)
                (w :: weak)) as (bs & Hbs & _).
    { intros h p Hhp. destruct (Hin h p Hhp) as [u Hu].
      eapply registry_has; eauto. }
    rewrite Hbs. simpl. eexists; split; reflexivity.
Qed.

End Analysis.
End JenkinsFacts.

(** C3: the priority of the Jenkins report is CRITICAL when at least one
    password hash is cracked, MEDIUM when none is cracked but credentials
    exist or a version other than "Unknown" was extracted, and LOW when there
    are no credentials and no version; with no cracked password it is never
    CRITICAL.  The report is returned whenever the cracker returns and every
    hash it cracked is the hash of a credential. *)
Theorem C3_jenkins_priority `{Reporting.ReportInit}
    (crack : list string -> Py.result (list (string * string)))
    (version : option string) (credentials weak : list (string * string)) :
  crack (Py.dict_keys (Jenkins.credentials_registry credentials)) = Py.Ok weak ->
  (forall h p, In (h, p) weak -> exists u, In (u, h) credentials) ->
  exists report,
    Jenkins.analyze_jenkins crack version credentials = Py.Ok report
    /\ (weak <> [] -> Reporting.priority report = Reporting.CRITICAL)
    /\ (weak = [] ->
        credentials <> [] \/ JenkinsNotions.known_version version = true ->
        Reporting.priority report = Reporting.MEDIUM)
    /\ (weak = [] -> credentials = [] ->
        JenkinsNotions.known_version version = false ->
        Reporting.priority report = Reporting.LOW)
    /\ (weak = [] -> Reporting.priority report <> Reporting.CRITICAL).
Proof.
  intros Hcrack Hin.
  destruct (JenkinsFacts.analyze_jenkins_priority crack version credentials
              weak Hcrack Hin) as (report & Hr & Hp).
  exists report. split; [exact Hr|]. rewrite Hp.
  repeat split.
  - destruct weak; [contradiction|reflexivity].
  - intros -> [Hc|Hv].
    + destruct credentials; [contradiction|reflexivity].
    + rewrite Hv, orb_true_r. reflexivity.
  - intros -> -> ->. reflexivity.
  - intros ->. now destruct (_ || _).
Qed.

Lemma C3_jenkins_priority_witness :
  exists report,
    Jenkins.analyze_jenkins (H := sample_init) (fun _ => Py.Ok [])
      (Some "2.401") [("alice", "hashA")] = Py.Ok report
    /\ Reporting.priority report = Reporting.MEDIUM.
Proof.
  destruct (C3_jenkins_priority (H := sample_init) (fun _ => Py.Ok [])
              (Some "2.401") [("alice", "hashA")] [])
    as (report & Hr & _ & Hm & _).
  - reflexivity.
  - simpl. tauto.
  - exists report. split; [exact Hr|]. apply Hm; [reflexivity|].
    left. discriminate.
Defined.

(** C4: cracked results are joined back to usernames through a mapping from
    hash to username, so a hash listed for several usernames keeps the last
    one; with credentials [("alice", "hashA")] and cracked results
    [("hashA", "pw123")] the report has exactly one per-password bullet, and
    it names alice and pw123. *)
Theorem C4_credential_join `{Reporting.ReportInit} :
  (forall credentials h,
      Py.dict_get h (Jenkins.credentials_registry credentials)
      = JenkinsNotions.last_username h credentials)
  /\ (forall crack version,
         crack ["hashA"] = Py.Ok [("hashA", "pw123")] ->
         exists report,
           Jenkins.analyze_jenkins crack version [("alice", "hashA")]
           = Py.Ok report
           /\ List.filter JenkinsNotions.is_level2 (Reporting.bullets report)
              = [alice_bullet]
           /\ Py.contains "alice" alice_line = true
           /\ Py.contains "pw123" alice_line = true).
Proof.
  split.
  - intros credentials h. apply JenkinsFacts.registry_get.
  - intros crack version Hcrack. unfold Jenkins.analyze_jenkins.
    change (Py.dict_keys (Jenkins.credentials_registry [("alice", "hashA")]))
      with ["hashA"].
    rewrite Hcrack. simpl. eexists. split; [reflexivity|].
    repeat split; reflexivity.
Qed.

Lemma C4_credential_join_witness :
  exists report,
    Jenkins.analyze_jenkins (H := sample_init)
      (fun _ => Py.Ok [("hashA", "pw123")]) None [("alice", "hashA")]
    = Py.Ok report
    /\ List.filter JenkinsNotions.is_level2 (Reporting.bullets report)
       = [alice_bullet].
Proof.
  destruct (proj2 (C4_credential_join (H := sample_init))
              (fun _ => Py.Ok [("hashA", "pw123")]) None eq_refl)
    as (report & Hr & Hb & _).
  exists report. split; assumption.
Defined.

(** ** Container drift *)

Module DriftFacts.
Import Py Reporting Drift DriftNotions.

Lemma guard_false v : not_a_filled_list v -> truthy v && is_list v = false.
Proof.
  destruct v as [| b | z | s | [|x items] | m]; simpl; try tauto;
    intros _; auto using andb_false_r.
Qed.

Section Task.
Context `{ReportInit}.
Variable py_str : json -> string.
Variable create_output_file : nat -> string -> string -> string -> OutputFile.

Lemma records_of_key_malformed key status cid ctype d acc :
  not_a_filled_list (get key JNull d) ->
  records_of_key py_str key status cid ctype d acc = Ok acc.
Proof. intros Hv. unfold records_of_key. now rewrite guard_false. Qed.

(** An entry whose two keys are both malformed leaves the records as they
    are. *)
Lemma flatten_item_malformed d acc :
  not_a_filled_list (get "AddedOrModified" JNull d) ->
  not_a_filled_list (get "InaccessibleFiles" JNull d) ->
  flatten_item py_str (JObj d) acc = Ok acc.
Proof.
  intros Ha Hi. unfold flatten_item.
  rewrite records_of_key_malformed by exact Ha. simpl.
  now rewrite records_of_key_malformed by exact Hi.
Qed.

Lemma flatten_items_skip pre d post :
  (forall acc, flatten_item py_str (JObj d) acc = Ok acc) ->
  forall acc,
    flatten_items py_str (pre ++ JObj d :: post) acc
    = flatten_items py_str (pre ++ post) acc.
Proof.
  intros Hd.
  induction pre as [|x pre IH]; intros acc; cbn [app flatten_items].
  - now rewrite Hd.
  - destruct (flatten_item py_str x acc) as [acc'|e]; simpl; [apply IH|reflexivity].
Qed.

Lemma flatten_items_app pre post : forall acc,
  flatten_items py_str (pre ++ post) acc
  = (acc' ← flatten_items py_str pre acc; flatten_items py_str post acc').
Proof.
  induction pre as [|x pre IH]; intros acc; cbn [app flatten_items];
    [reflexivity|].
  destruct (flatten_item py_str x acc); simpl; [apply IH|reflexivity].
Qed.

End Task.
End DriftFacts.

(** C5: for every entry of the top-level drift list, a value of
    [AddedOrModified] (or [InaccessibleFiles]) that is not a list, or is
    missing, [None] or empty, yields no record from that key and raises
    nothing; the other key of the entry and the entries at other positions
    are converted as without it. *)
Theorem C5_malformed_drift_entries
    (py_str : Drift.json -> string) (d : Py.dict Drift.json) :
  let cid := Drift.get "ContainerID" (Drift.JStr "") d in
  let ctype := Drift.get "ContainerType" (Drift.JStr "") d in
  (DriftNotions.not_a_filled_list (Drift.get "AddedOrModified" Drift.JNull d) ->
   forall acc,
     Drift.records_of_key py_str "AddedOrModified" "File added or modified"
       cid ctype d acc = Py.Ok acc
     /\ Drift.flatten_item py_str (Drift.JObj d) acc
        = Drift.records_of_key py_str "InaccessibleFiles" "File deleted"
            cid ctype d acc)
  /\ (DriftNotions.not_a_filled_list (Drift.get "InaccessibleFiles" Drift.JNull d) ->
      forall acc,
        Drift.records_of_key py_str "InaccessibleFiles" "File deleted"
          cid ctype d acc = Py.Ok acc
        /\ Drift.flatten_item py_str (Drift.JObj d) acc
           = Drift.records_of_key py_str "AddedOrModified"
               "File added or modified" cid ctype d acc)
  /\ (DriftNotions.not_a_filled_list (Drift.get "AddedOrModified" Drift.JNull d) ->
      DriftNotions.not_a_filled_list (Drift.get "InaccessibleFiles" Drift.JNull d) ->
      Drift._flattern_container_drift_data py_str (Drift.JArr [Drift.JObj d])
      = Py.Ok []
      /\ forall pre post,
          Drift._flattern_container_drift_data py_str
            (Drift.JArr (pre ++ Drift.JObj d :: post))
          = Drift._flattern_container_drift_data py_str
              (Drift.JArr (pre ++ post))).
Proof.
  cbv zeta. split; [|split].
  - intros Ha acc. split.
    + now apply DriftFacts.records_of_key_malformed.
    + unfold Drift.flatten_item.
      now rewrite DriftFacts.records_of_key_malformed by exact Ha.
  - intros Hi acc. split.
    + now apply DriftFacts.records_of_key_malformed.
    + unfold Drift.flatten_item.
      destruct (Drift.records_of_key py_str "AddedOrModified" _ _ _ d acc)
        as [acc'|e]; simpl; [|reflexivity].
      now apply DriftFacts.records_of_key_malformed.
  - intros Ha Hi. split.
    + unfold Drift._flattern_container_drift_data.
      cbn [Drift.truthy length Nat.eqb negb Drift.flatten_items].
      now rewrite DriftFacts.flatten_item_malformed.
    + intros pre post. unfold Drift._flattern_container_drift_data.
      assert (Hskip : Drift.flatten_items py_str (pre ++ Drift.JObj d :: post) []
                      = Drift.flatten_items py_str (pre ++ post) []).
      { apply DriftFacts.flatten_items_skip. intros acc.
        now apply DriftFacts.flatten_item_malformed. }
      destruct pre as [|x pre]; [destruct post as [|y post]|];
        cbn [app Drift.truthy length Nat.eqb negb] in *; exact Hskip.
Qed.

Lemma C5_malformed_drift_entries_witness :
  Drift._flattern_container_drift_data sample_py_str
    (Drift.JArr ([sample_entry] ++ Drift.JObj malformed_entry :: []))
  = Drift._flattern_container_drift_data sample_py_str
      (Drift.JArr ([sample_entry] ++ []))
  /\ length (match Drift._flattern_container_drift_data sample_py_str
                     (Drift.JArr [sample_entry; Drift.JObj malformed_entry])
             with Py.Ok l => l | Py.Raise _ => [] end) = 1.
Proof.
  split; [|reflexivity].
  apply (proj2 (proj2 (C5_malformed_drift_entries sample_py_str malformed_entry))).
  - exact I.
  - exact I.
Defined.

(** C6: when the containerd run yields 3 flattened records and the docker
    run 4, the combined drift list has length 7 with the containerd records
    first; two output files, one JSON and one CSV, are created from it; and
    the task report has the bullets "2 output files created" and "7 files
    added, modified, or deleted".  The paths come from [create_output_file]:
    the one of the JSON file contains [.json], the one of the CSV file does
    not. *)
Theorem C6_drift_scenario `{Reporting.ReportInit}
    (py_str : Drift.json -> string)
    (create_output_file : nat -> string -> string -> string -> Drift.OutputFile)
    (env : Drift.drift_env) (containerd docker : list Drift.drift_record)
    (output_path : string) (st : Drift.store) :
  let json_file :=
    create_output_file (Drift.created st) output_path "container_drift" "json" in
  let csv_file :=
    create_output_file (S (Drift.created st)) output_path "container_drift"
      "csv" in
  Drift.mkdir_temp env = Py.Ok tt ->
  (Drift.temp_exists env = true -> Drift.rmtree env = Py.Ok tt) ->
  Drift._run_container_explorer py_str (Drift.containerd_run env)
  = Py.Ok containerd ->
  length containerd = 3 ->
  Drift._run_container_explorer py_str (Drift.docker_run env) = Py.Ok docker ->
  length docker = 4 ->
  Py.contains ".json" (Drift.path json_file) = true ->
  Py.contains ".json" (Drift.path csv_file) = false ->
  exists drift_data st' report,
    Drift.run_container_drift py_str env = Py.Ok drift_data
    /\ drift_data = containerd ++ docker
    /\ length drift_data = 7
    /\ Drift._create_drift_output_files create_output_file output_path
         drift_data st = ([json_file; csv_file], st')
    /\ Drift.files st' !! Drift.path json_file = Some (Drift.JsonDump drift_data)
    /\ Drift.files st' !! Drift.path csv_file
       = Some (Drift.CsvTable Drift.record_keys
                 (map Drift.record_values drift_data))
    /\ Drift.create_task_report st' [json_file; csv_file] "" = Py.Ok report
    /\ Reporting.bullets report
       = [Reporting.bullet "2 output files created";
          Reporting.bullet "7 files added, modified, or deleted"].
Proof.
  intros json_file csv_file Hmk Hrm Hc Hlc Hd Hld Hj Hcsv.
  assert (Hne : Drift.path csv_file <> Drift.path json_file).
  { intros E. rewrite E, Hj in Hcsv. discriminate. }
  assert (Hlen : length (containerd ++ docker) = 7).
  { rewrite length_app. lia. }
  assert (Hrun : Drift.run_container_drift py_str env
                 = Py.Ok (containerd ++ docker)).
  { unfold Drift.run_container_drift. rewrite Hmk, Hc, Hd. simpl.
    rewrite Hlc, Hld. simpl.
    destruct (Drift.temp_exists env); [rewrite Hrm by reflexivity|];
      reflexivity. }
  destruct (containerd ++ docker) as [|first more] eqn:Edata;
    [discriminate|]. rewrite <- Edata in *.
  set (st' := Drift.write (Drift.path csv_file)
                (Drift.CsvTable Drift.record_keys
                   (map Drift.record_values (containerd ++ docker)))
                (Drift.fresh
                   (Drift.write (Drift.path json_file)
                      (Drift.JsonDump (containerd ++ docker))
                      (Drift.fresh st)))).
  assert (Hlj : Drift.files st' !! Drift.path json_file
                = Some (Drift.JsonDump (containerd ++ docker))).
  { subst st'. cbn [Drift.files Drift.write Drift.fresh].
    now rewrite lookup_insert_ne, lookup_insert_eq. }
  assert (Hlcsv : Drift.files st' !! Drift.path csv_file
                  = Some (Drift.CsvTable Drift.record_keys
                            (map Drift.record_values (containerd ++ docker)))).
  { subst st'. cbn [Drift.files Drift.write Drift.fresh].
    now rewrite lookup_insert_eq. }
  assert (Hjne : String.eqb (Drift.path json_file) "" = false).
  { destruct (Drift.path json_file); [discriminate Hj|reflexivity]. }
  exists (containerd ++ docker), st'.
  eexists. split; [exact Hrun|]. split; [reflexivity|].
  split; [exact Hlen|]. split.
  { unfold Drift._create_drift_output_files. rewrite Edata.
    rewrite <- Edata. reflexivity. }
  split; [exact Hlj|]. split; [exact Hlcsv|].
  unfold Drift.create_task_report, Drift.count_records.
  rewrite Hjne, Hj, Hcsv, Hlj, Hlen.
  destruct (String.eqb (Drift.path csv_file) ""); simpl;
    (split; [reflexivity|]); reflexivity.
Qed.

Lemma C6_drift_scenario_witness :
  exists drift_data st' report,
    Drift.run_container_drift sample_py_str sample_env = Py.Ok drift_data
    /\ length drift_data = 7
    /\ Drift._create_drift_output_files sample_create_output_file
         "/tmp/container_drift" drift_data empty_store
       = ([sample_create_output_file 0 "/tmp/container_drift"
             "container_drift" "json";
           sample_create_output_file 1 "/tmp/container_drift"
             "container_drift" "csv"], st')
    /\ Reporting.bullets report
       = [Reporting.bullet "2 output files created";
          Reporting.bullet "7 files added, modified, or deleted"].
Proof.
  destruct (C6_drift_scenario (H := sample_init) sample_py_str
              sample_create_output_file sample_env
              (records_or_nil (Drift._run_container_explorer sample_py_str
                                 (Drift.containerd_run sample_env)))
              (records_or_nil (Drift._run_container_explorer sample_py_str
                                 (Drift.docker_run sample_env)))
              "/tmp/container_drift" empty_store)
    as (drift_data & st' & report & H1 & _ & H3 & H4 & _ & _ & _ & H8);
    try reflexivity.
  exists drift_data, st', report. auto.
Defined.

(** ** Facts about the matcher *)

Module PyReFacts.
Import PyRe ReNotions.

Ltac every_ascii :=
  let c := fresh "c" in
  intros c; destruct c as [[] [] [] [] [] [] [] []]; reflexivity.

Lemma lower_idem : forall c, lower (lower c) = lower c.
Proof. every_ascii. Qed.








Lemma lower_s_idem s : lower_s (lower_s s) = lower_s s.
Proof. induction s; simpl; [easy|]. now rewrite lower_idem, IHs. Qed.

Lemma same_letters_lower s : same_letters (lower_s s) s.
Proof. apply lower_s_idem. Qed.



Section IgnoreCase.
Variable fl : flags.
Hypothesis Hfl : ignorecase fl = true.





End IgnoreCase.

Section Multiline.
Variable fl : flags.
Hypothesis Hfl : multiline fl = true.





End Multiline.

Lemma search_from_leftmost fl r : forall s prev m,
  search_from fl r prev s = Some m ->
  exists pre post,
    s = pre +:+ post
    /\ match_at fl r (prev_of prev pre) post = Some m
    /\ forall pre1 post1,
        pre = pre1 +:+ post1 -> post1 <> "" ->
        match_at fl r (prev_of prev pre1) (post1 +:+ post) = None.
Proof.
  assert (Hnil : forall pre1 post1 : string,
             "" = pre1 +:+ post1 -> post1 <> "" -> False).
  { intros [|a pre1] [|b post1] Hsplit Hne; cbv in Hsplit; congruence. }
  induction s as [|c s IH]; intros prev m; simpl.
  - destruct (match_at fl r prev "") eqn:E; [|discriminate].
    intros [= ->]. exists "", "". repeat split; auto.
    intros pre1 post1 Hsplit Hne. destruct (Hnil _ _ Hsplit Hne).
  - destruct (match_at fl r prev (String c s)) eqn:E.
    + intros [= ->]. exists "", (String c s). repeat split; auto.
      intros pre1 post1 Hsplit Hne. destruct (Hnil _ _ Hsplit Hne).
    + intros Hs. destruct (IH _ _ Hs) as (pre & post & -> & Hm & Hnone).
      exists (String c pre), post. repeat split; auto.
      intros [|c1 pre1] post1 Hsplit Hne.
      * change ("" +:+ post1) with post1 in Hsplit. subst post1. exact E.
      * change (String c1 pre1 +:+ post1) with (String c1 (pre1 +:+ post1))
          in Hsplit.
        injection Hsplit as -> ->. now apply Hnone.
Qed.

(** [re.search] returns the leftmost match. *)
Lemma search_first_match fl r config m :
  search fl r config = Some m -> first_match fl r config m.
Proof. apply search_from_leftmost. Qed.

(** A pattern that begins with a literal finds nothing in a text that does
    not contain the literal. *)
Lemma lit_needs_prefix w : forall s prev gs k,
  String.prefix w s = false -> rmatch NOFLAGS (lit w) prev s gs k = None.
Proof.
  induction w as [|c w IH]; intros s prev gs k Hp.
  - destruct s; discriminate Hp.
  - destruct s as [|x s]; [reflexivity|]. simpl in *. unfold chr_eq. simpl.
    destruct (ascii_dec c x) as [->|Hne].
    + rewrite Ascii.eqb_refl. now apply IH.
    + apply Ascii.eqb_neq in Hne. now rewrite Hne.
Qed.

Lemma search_needs_literal w r : forall s prev,
  Py.contains w s = false ->
  search_from NOFLAGS (Cat (lit w) r) prev s = None.
Proof.
  induction s as [|c s IH]; intros prev; simpl; intros Hc;
    apply orb_false_elim in Hc as [Hp Hc'].
  - unfold match_at. simpl. now rewrite lit_needs_prefix.
  - unfold match_at. simpl. rewrite lit_needs_prefix by exact Hp. now apply IH.
Qed.

End PyReFacts.

(** ** Letter case and line starts in the config analyzers *)

Module CaseFacts.
Import PyRe ReNotions PyReFacts Reporting.




End CaseFacts.




(** ** Priority and findings *)

Module PriorityFacts.
Import Py Reporting JenkinsNotions.

Lemma bullets_section `{ReportInit} (bs : list block) t :
  Forall (fun b => is_bullet b = true) bs ->
  bullets (with_section bs (new_report t)) = bs.
Proof.
  intros Hall. unfold bullets, blocks. simpl. rewrite app_nil_r.
  induction Hall as [|b bs Hb _ IH]; simpl; [easy|]. now rewrite Hb, IH.
Qed.

(** Reports that are HIGH with a bullet and LOW without are ordered by their
    bullets. *)
Lemma two_levels_monotone (r1 r2 : Report) :
  priority r1 = (match bullets r1 with [] => LOW | _ => HIGH end) ->
  priority r2 = (match bullets r2 with [] => LOW | _ => HIGH end) ->
  incl (bullets r1) (bullets r2) ->
  priority_le (priority r1) (priority r2).
Proof.
  intros -> -> Hincl. unfold priority_le.
  destruct (bullets r1) as [|b bs]; destruct (bullets r2) as [|b' bs'];
    simpl; try lia.
  destruct (Hincl b). now left.
Qed.

Section Shapes.
Context `{ReportInit}.

Lemma sshd_findings_bullets config :
  Forall (fun b => is_bullet b = true) (Sshd.findings config).
Proof.
  unfold Sshd.findings.
  repeat match goal with |- context [if ?b then _ else _] => destruct b end;
    simpl; repeat constructor.
Qed.

Lemma sshd_shape config :
  let r := Sshd.analyze_config config in
  priority r = match bullets r with [] => LOW | _ => HIGH end.
Proof.
  cbv zeta. unfold Sshd.analyze_config.
  pose proof (bullets_section _ None (sshd_findings_bullets config)) as Hb.
  destruct (Sshd.findings config) as [|b bs]; simpl in *.
  - reflexivity.
  - unfold bullets, blocks in *. simpl in *. now rewrite Hb.
Qed.

Lemma remote_access_bullets line :
  Forall (fun b => is_bullet b = true) (Jupyter.remote_access line).
Proof.
  unfold Jupyter.remote_access.
  destruct (Jupyter.all_in _ _ _); repeat constructor.
Qed.

Lemma scan_line_bullets line :
  Forall (fun b => is_bullet b = true) (Jupyter.scan_line line).
Proof.
  unfold Jupyter.scan_line.
  repeat match goal with
         | |- context [if ?b then _ else _] => destruct b
         | |- Forall _ (_ ++ _) => apply Forall_app; split
         | |- Forall _ (Jupyter.remote_access _) => apply remote_access_bullets
         end; repeat constructor.
Qed.

Lemma jupyter_findings_bullets config :
  Forall (fun b => is_bullet b = true) (Jupyter.findings config).
Proof.
  unfold Jupyter.findings.
  induction (split PyRe.newline config) as [|l ls IH]; simpl; [constructor|].
  apply Forall_app. split; [apply scan_line_bullets|exact IH].
Qed.

Lemma jupyter_shape config :
  let r := Jupyter.analyze_config config in
  priority r = match bullets r with [] => LOW | _ => HIGH end.
Proof.
  cbv zeta. unfold Jupyter.analyze_config.
  pose proof (bullets_section _ None (jupyter_findings_bullets config)) as Hb.
  destruct (Jupyter.findings config) as [|b bs]; simpl in *.
  - reflexivity.
  - unfold bullets, blocks in *. simpl in *. now rewrite Hb.
Qed.

Lemma tomcat_findings_bullets config :
  Forall (fun b => is_bullet b = true) (Tomcat.findings config).
Proof.
  unfold Tomcat.findings.
  repeat (apply Forall_app; split);
    try (apply Forall_forall; intros b Hb;
         apply list_elem_of_In, in_map_iff in Hb as (x & <- & _); reflexivity).
  destruct (_ && _); repeat constructor.
Qed.

Lemma tomcat_shape config :
  let r := Tomcat.analyze_config config in
  priority r = match bullets r with [] => LOW | _ => HIGH end.
Proof.
  cbv zeta. unfold Tomcat.analyze_config.
  pose proof (bullets_section _ None (tomcat_findings_bullets config)) as Hb.
  destruct (Tomcat.findings config) as [|b bs]; simpl in *.
  - reflexivity.
  - unfold bullets, blocks in *. simpl in *. now rewrite Hb.
Qed.

Lemma redis_findings_bullets config :
  Forall (fun b => is_bullet b = true) (Redis.findings config).
Proof.
  unfold Redis.findings.
  repeat match goal with |- context [if ?b then _ else _] => destruct b end;
    simpl; repeat constructor.
Qed.

(** The Redis analyzer leaves the priority of a clean, non-empty config as
    [Report()] set it. *)
Lemma redis_shape config :
  init_priority = LOW ->
  let r := Redis.analyze_config config in
  priority r = match bullets r with [] => LOW | _ => HIGH end.
Proof.
  intros Hinit. cbv zeta. unfold Redis.analyze_config.
  destruct (String.eqb config ""); [reflexivity|].
  pose proof (bullets_section _ None (redis_findings_bullets config)) as Hb.
  destruct (Redis.findings config) as [|b bs]; simpl in *.
  - exact Hinit.
  - unfold bullets, blocks in *. simpl in *. now rewrite Hb.
Qed.

(** The priority of whatever report [analyze_jenkins] returns. *)
Lemma jenkins_priority_of crack version credentials weak report :
  crack (dict_keys (Jenkins.credentials_registry credentials)) = Ok weak ->
  Jenkins.analyze_jenkins crack version credentials = Ok report ->
  priority report
  = match weak with
    | _ :: _ => CRITICAL
    | [] =>
        if negb (match credentials with [] => true | _ => false end)
           || JenkinsNotions.known_version version
        then MEDIUM else LOW
    end.
Proof.
  intros Hcrack. unfold Jenkins.analyze_jenkins. rewrite Hcrack. simpl.
  destruct weak as [|w weak].
  - rewrite JenkinsFacts.registry_nil.
    assert (Hv : negb (String.eqb
                         match version with
                         | Some v => if String.eqb v "" then "Unknown" else v
                         | None => "Unknown"
                         end "Unknown") = JenkinsNotions.known_version version).
    { destruct version as [v|]; simpl; [|reflexivity].
      destruct (String.eqb v "") eqn:E; simpl; reflexivity. }
    rewrite Hv. destruct (negb _ || JenkinsNotions.known_version version);
      intros [= <-]; reflexivity.
  - destruct (Jenkins.password_bullets _ (w :: weak)); simpl;
      [intros [= <-]; reflexivity|discriminate].
Qed.

End Shapes.

Lemma jenkins_findings_monotone v1 c1 w1 v2 c2 w2 :
  incl (jenkins_findings v1 c1 w1) (jenkins_findings v2 c2 w2) ->
  (w1 <> [] -> w2 <> [])
  /\ (c1 <> [] -> c2 <> [])
  /\ (JenkinsNotions.known_version v1 = true ->
      JenkinsNotions.known_version v2 = true).
Proof.
  intros Hincl. unfold jenkins_findings in *. repeat split.
  - destruct w1 as [|w w1]; [easy|]. intros _ ->.
    specialize (Hincl (CrackedPassword (fst w) (snd w))).
    rewrite !in_app_iff in Hincl. simpl in Hincl.
    destruct Hincl as [Hv|[Hc|[]]]; [tauto| |].
    + destruct v2 as [v|]; [destruct (String.eqb v "")|]; simpl in Hv;
        intuition discriminate.
    + apply in_map_iff in Hc as (x & Hx & _). discriminate.
  - destruct c1 as [|c c1]; [easy|]. intros _ ->.
    specialize (Hincl (CredentialFinding (fst c) (snd c))).
    rewrite !in_app_iff in Hincl. simpl in Hincl.
    destruct Hincl as [Hv|[[]|Hw]]; [tauto| |].
    + destruct v2 as [v|]; [destruct (String.eqb v "")|]; simpl in Hv;
        intuition discriminate.
    + apply in_map_iff in Hw as (x & Hx & _). discriminate.
  - destruct v1 as [v|]; [|discriminate]. simpl.
    destruct (String.eqb v "") eqn:Ev; [discriminate|]. simpl. intros Hu.
    specialize (Hincl (VersionFinding v)). simpl in Hincl.
    rewrite !in_app_iff in Hincl.
    destruct Hincl as [Hv|[Hc|Hw]]; [tauto| | |].
    + destruct v2 as [v'|]; [|destruct Hv]. simpl.
      destruct (String.eqb v' "") eqn:Ev'; [destruct Hv|].
      destruct Hv as [[= ->]|[]]. exact Hu.
    + apply in_map_iff in Hc as (x & Hx & _). discriminate.
    + apply in_map_iff in Hw as (x & Hx & _). discriminate.
Qed.

End PriorityFacts.

(** C9: the priority of a config-analyzer report is monotone in its findings.
    For two inputs of the same analyzer, when the findings of the first are
    among those of the second, the first priority is at most the second under
    INFO < LOW < MEDIUM < HIGH < CRITICAL.  The findings of the SSHD, Jupyter,
    Tomcat and Redis analyzers are the bullets of the report; those of the Jenkins
    analyzer are the version, the credentials and the cracked passwords.
    The Redis analyzer keeps the priority [Report()] starts with on a clean
    config, LOW in the library. *)
Theorem C9_priority_monotone `{Reporting.ReportInit} :
  (forall c1 c2,
      incl (Reporting.bullets (Sshd.analyze_config c1))
           (Reporting.bullets (Sshd.analyze_config c2)) ->
      Reporting.priority_le (Reporting.priority (Sshd.analyze_config c1))
                            (Reporting.priority (Sshd.analyze_config c2)))
  /\ (forall c1 c2,
         incl (Reporting.bullets (Jupyter.analyze_config c1))
              (Reporting.bullets (Jupyter.analyze_config c2)) ->
         Reporting.priority_le
           (Reporting.priority (Jupyter.analyze_config c1))
           (Reporting.priority (Jupyter.analyze_config c2)))
  /\ (forall c1 c2,
         incl (Reporting.bullets (Tomcat.analyze_config c1))
              (Reporting.bullets (Tomcat.analyze_config c2)) ->
         Reporting.priority_le
           (Reporting.priority (Tomcat.analyze_config c1))
           (Reporting.priority (Tomcat.analyze_config c2)))
  /\ (Reporting.init_priority = Reporting.LOW ->
      forall c1 c2,
        incl (Reporting.bullets (Redis.analyze_config c1))
             (Reporting.bullets (Redis.analyze_config c2)) ->
        Reporting.priority_le
          (Reporting.priority (Redis.analyze_config c1))
          (Reporting.priority (Redis.analyze_config c2)))
  /\ (forall crack1 crack2 v1 v2 c1 c2 w1 w2 r1 r2,
         crack1 (Py.dict_keys (Jenkins.credentials_registry c1)) = Py.Ok w1 ->
         crack2 (Py.dict_keys (Jenkins.credentials_registry c2)) = Py.Ok w2 ->
         Jenkins.analyze_jenkins crack1 v1 c1 = Py.Ok r1 ->
         Jenkins.analyze_jenkins crack2 v2 c2 = Py.Ok r2 ->
         incl (JenkinsNotions.jenkins_findings v1 c1 w1)
              (JenkinsNotions.jenkins_findings v2 c2 w2) ->
         Reporting.priority_le (Reporting.priority r1) (Reporting.priority r2)).
Proof.
  split; [|split; [|split; [|split]]].
  - intros c1 c2. apply PriorityFacts.two_levels_monotone;
      apply PriorityFacts.sshd_shape.
  - intros c1 c2. apply PriorityFacts.two_levels_monotone;
      apply PriorityFacts.jupyter_shape.
  - intros c1 c2. apply PriorityFacts.two_levels_monotone;
      apply PriorityFacts.tomcat_shape.
  - intros Hinit c1 c2. apply PriorityFacts.two_levels_monotone;
      now apply PriorityFacts.redis_shape.
  - intros crack1 crack2 v1 v2 c1 c2 w1 w2 r1 r2 Hk1 Hk2 Hr1 Hr2 Hincl.
    rewrite (PriorityFacts.jenkins_priority_of crack1 v1 c1 w1 r1 Hk1 Hr1).
    rewrite (PriorityFacts.jenkins_priority_of crack2 v2 c2 w2 r2 Hk2 Hr2).
    destruct (PriorityFacts.jenkins_findings_monotone _ _ _ _ _ _ Hincl)
      as (Hw & Hc & Hv).
    unfold Reporting.priority_le.
    destruct w1 as [|x w1].
    + destruct c1 as [|y c1]; simpl.
      * destruct (JenkinsNotions.known_version v1) eqn:E1; simpl.
        -- rewrite (Hv eq_refl), orb_true_r.
           destruct w2; simpl; lia.
        -- destruct w2; [destruct (_ || _)|]; simpl; lia.
      * assert (Hc2 : c2 <> []) by (apply Hc; discriminate).
        destruct c2; [contradiction|]. destruct w2; simpl; lia.
    + assert (Hw2 : w2 <> []) by (apply Hw; discriminate).
      destruct w2; [contradiction|]. simpl. lia.
Qed.

Lemma C9_priority_monotone_witness :
  Reporting.priority_le
    (Reporting.priority (Redis.analyze_config (H := sample_init) ""))
    (Reporting.priority
       (Redis.analyze_config (H := sample_init) "bind 0.0.0.0"))
  /\ Reporting.priority_le
       (Reporting.priority (Sshd.analyze_config (H := sample_init) "Port 22"))
       (Reporting.priority
          (Sshd.analyze_config (H := sample_init) sshd_three_lines)).
Proof.
  destruct (C9_priority_monotone (H := sample_init)) as (Hs & _ & _ & Hr & _).
  split.
  - apply Hr; [reflexivity|]. intros b Hb. destruct Hb.
  - apply Hs. intros b Hb. destruct Hb.
Defined.

(** ** Jenkins credential extraction *)

(** C10: Jenkins credential extraction returns at most one (username,
    password hash) pair.  It pairs the first [<fullName>] match of the file
    with the first [<passwordHash>#jbcrypt:] match, also when the file
    defines several users or the two tags belong to different users, and
    returns the empty list when either tag is absent. *)
Theorem C10_single_credential_pair (config : string) :
  length (Jenkins._extract_jenkins_credentials config) <= 1
  /\ (Py.contains "<fullName>" config = false
      \/ Py.contains "<passwordHash>#jbcrypt:" config = false ->
      Jenkins._extract_jenkins_credentials config = [])
  /\ (PyRe.search PyRe.NOFLAGS Jenkins.username_re config = None
      \/ PyRe.search PyRe.NOFLAGS Jenkins.password_hash_re config = None ->
      Jenkins._extract_jenkins_credentials config = [])
  /\ (forall pair,
         In pair (Jenkins._extract_jenkins_credentials config) ->
         exists u p,
           ReNotions.first_match PyRe.NOFLAGS Jenkins.username_re config u
           /\ ReNotions.first_match PyRe.NOFLAGS Jenkins.password_hash_re
                config p
           /\ pair = (PyRe.group1 u, PyRe.group1 p))
  /\ Jenkins._extract_jenkins_credentials two_users = [("alice", "HASHB")].
Proof.
  unfold Jenkins._extract_jenkins_credentials. cbv zeta.
  split; [|split; [|split; [|split]]].
  - destruct (PyRe.search PyRe.NOFLAGS Jenkins.username_re config),
             (PyRe.search PyRe.NOFLAGS Jenkins.password_hash_re config); simpl; lia.
  - intros [Hu|Hp].
    + assert (E : PyRe.search PyRe.NOFLAGS Jenkins.username_re config = None)
        by now apply (PyReFacts.search_needs_literal "<fullName>").
      now rewrite E.
    + assert (E : PyRe.search PyRe.NOFLAGS Jenkins.password_hash_re config
                  = None)
        by now apply (PyReFacts.search_needs_literal "<passwordHash>#jbcrypt:").
      rewrite E.
      now destruct (PyRe.search PyRe.NOFLAGS Jenkins.username_re config).
  - intros [-> | ->]; [reflexivity|].
    now destruct (PyRe.search PyRe.NOFLAGS Jenkins.username_re config).
  - intros pair.
    destruct (PyRe.search PyRe.NOFLAGS Jenkins.username_re config) as [u|] eqn:Eu;
      [|intros []].
    destruct (PyRe.search PyRe.NOFLAGS Jenkins.password_hash_re config) as [p|] eqn:Ep;
      [|intros []].
    intros [<-|[]]. exists u, p.
    auto using PyReFacts.search_first_match.
  - vm_compute. reflexivity.
Qed.

Lemma C10_single_credential_pair_witness :
  Jenkins._extract_jenkins_credentials
    "<passwordHash>#jbcrypt:HASHB</passwordHash>" = []
  /\ exists u p,
      ReNotions.first_match PyRe.NOFLAGS Jenkins.username_re two_users u
      /\ ReNotions.first_match PyRe.NOFLAGS Jenkins.password_hash_re
           two_users p
      /\ ("alice", "HASHB") = (PyRe.group1 u, PyRe.group1 p).
Proof.
  split.
  - apply (C10_single_credential_pair
             "<passwordHash>#jbcrypt:HASHB</passwordHash>").
    left. reflexivity.
  - apply (C10_single_credential_pair two_users). vm_compute. tauto.
Defined.

